(** * worker_transaction.c: transactions across all workers

    A shallow embedding of
    [src/backend/distributed/transaction/worker_transaction.c] and the
    properties of its connection registry, its two command dispatchers and
    its transaction callback.

    The C file keeps two process-wide variables ([workerConnectionList] and
    [isXactCallbackRegistered]) and talks to libpq, to the connection cache,
    to the worker catalogue and to the remote-transaction helpers.  The
    embedding threads the two variables through a state-and-error monad and
    records every call that leaves the file in a chronological [trace]; the
    answers of the outside world are given by an [Env] of oracles that may
    depend on everything that happened before the call. *)

From Stdlib Require Import List String ZArith Bool Arith Lia DecimalString.
Import ListNotations.

Set Implicit Arguments.

(** ** Data *)

(** A [PGconn *] is represented by its address; [NULL] is address zero. *)
Definition PGconn := Z.
Definition NULL : PGconn := 0%Z.

(** libpq's [ExecStatusType]. *)
Inductive ExecStatusType :=
| PGRES_EMPTY_QUERY
| PGRES_COMMAND_OK
| PGRES_TUPLES_OK
| PGRES_COPY_OUT
| PGRES_COPY_IN
| PGRES_BAD_RESPONSE
| PGRES_NONFATAL_ERROR
| PGRES_FATAL_ERROR
| PGRES_COPY_BOTH
| PGRES_SINGLE_TUPLE.

(** A [PGresult *]: either the null pointer or a result carrying a status. *)
Definition PGresult := option ExecStatusType.

(** libpq answers [PGRES_FATAL_ERROR] for a null result. *)
Definition PQresultStatus (result : PGresult) : ExecStatusType :=
  match result with
  | Some status => status
  | None => PGRES_FATAL_ERROR
  end.

(** [status != PGRES_COMMAND_OK] *)
Definition not_COMMAND_OK (status : ExecStatusType) : bool :=
  match status with
  | PGRES_COMMAND_OK => false
  | _ => true
  end.

(** PostgreSQL's [XactEvent] (access/xact.h). *)
Inductive XactEvent :=
| XACT_EVENT_COMMIT
| XACT_EVENT_PARALLEL_COMMIT
| XACT_EVENT_ABORT
| XACT_EVENT_PARALLEL_ABORT
| XACT_EVENT_PREPARE
| XACT_EVENT_PRE_COMMIT
| XACT_EVENT_PARALLEL_PRE_COMMIT
| XACT_EVENT_PRE_PREPARE.

(** Modelled from the spec: the enumeration of handle states is declared in
    distributed/multi_transaction.h, which is not among the sources; the
    states are the ones the specification lists for a remote transaction
    handle.  The C file itself only ever writes [TRANSACTION_STATE_OPEN]. *)
Inductive TransactionState :=
| TRANSACTION_STATE_UNOPENED
| TRANSACTION_STATE_OPEN
| TRANSACTION_STATE_PREPARED
| TRANSACTION_STATE_COMMITTED
| TRANSACTION_STATE_ABORTED
| TRANSACTION_STATE_FAILED.

(** Modelled from the spec: the type of the [MultiShardCommitProtocol]
    setting is declared outside the sources; the specification recognises
    the two modes one-phase and two-phase. *)
Inductive CommitProtocolType :=
| COMMIT_PROTOCOL_1PC
| COMMIT_PROTOCOL_2PC.

(** The two fields of [WorkerNode] the file reads. *)
Record WorkerNode := {
  workerName : string;
  workerPort : Z
}.

Record TransactionConnection := {
  connectionId : Z;
  transactionState : TransactionState;
  connection : PGconn
}.

(** The text of an [ereport(ERROR, (errmsg(...)))]. *)
Definition ErrorData := string.

(** [%d] of [errmsg]. *)
Definition fmt_d (n : Z) : string := NilZero.string_of_int (Z.to_int n).

Definition errmsg_could_not_open_connection (nodeName : string) (nodePort : Z)
  : ErrorData :=
  ("could not open connection to " ++ nodeName ++ ":" ++ fmt_d nodePort)%string.

Definition errmsg_could_not_start_transaction (nodeName : string) (nodePort : Z)
  : ErrorData :=
  ("could not start transaction on " ++ nodeName ++ ":" ++ fmt_d nodePort)%string.

Definition errmsg_failed_to_send (nodeName nodePort : string) : ErrorData :=
  ("failed to send metadata change to " ++ nodeName ++ ":" ++ nodePort)%string.

Definition errmsg_failed_to_apply (nodeName nodePort : string) : ErrorData :=
  ("failed to apply metadata change on " ++ nodeName ++ ":" ++ nodePort)%string.

(** ** Calls that leave the file *)

(** One constructor per external routine the file calls.  [PQclear] and the
    memory-context switches only manage memory and have no counterpart. *)
Inductive event :=
| EvWorkerNodeList
| EvCloseConnections (connectionList : list TransactionConnection)
| EvGetOrEstablishConnection (nodeName : string) (nodePort : Z)
| EvPQexec (conn : PGconn) (command : string)
| EvPQsendQuery (conn : PGconn) (command : string)
| EvPQgetResult (conn : PGconn)
| EvReportRemoteError (conn : PGconn) (result : PGresult)
| EvRegisterXactCallback
| EvPrepareRemoteTransactions (connectionList : list TransactionConnection)
| EvCommitRemoteTransactions (connectionList : list TransactionConnection)
                             (stopOnFailure : bool)
| EvAbortRemoteTransactions (connectionList : list TransactionConnection).

(** The outside world.  Every oracle but [ConnectionGetOptionValue] receives
    the trace of the calls made so far, so that its answer may change from
    one call to the next.  [GetOrEstablishConnection] answers [NULL] when
    no connection can be had; [PQsendQuery] answers 0 when the query could
    not be dispatched. *)

(** Modelled from the spec: the three remote-transaction helpers
    ([PrepareRemoteTransactions], [CommitRemoteTransactions],
    [AbortRemoteTransactions]) are defined in
    distributed/multi_transaction.c, which is not among the sources.  They
    receive the list of handle pointers and may overwrite the
    [transactionState] of each handle in place: they answer with the new
    states, in list order.  The specification says that a PREPARE failure
    must force the local transaction to abort, whereas failures while
    handling COMMIT or ABORT are reported but never escalated; accordingly
    only the prepare helper can raise. *)
Record Env := {
  env_WorkerNodeList : list event -> list WorkerNode;
  env_GetOrEstablishConnection : list event -> string -> Z -> PGconn;
  env_PQexec : list event -> PGconn -> string -> PGresult;
  env_PQsendQuery : list event -> PGconn -> string -> Z;
  env_PQgetResult : list event -> PGconn -> PGresult;
  env_ConnectionGetOptionValue : PGconn -> string -> string;
  env_PrepareRemoteTransactions :
    list event -> list TransactionConnection ->
    list TransactionState * option ErrorData;
  env_CommitRemoteTransactions :
    list event -> list TransactionConnection -> bool -> list TransactionState;
  env_AbortRemoteTransactions :
    list event -> list TransactionConnection -> list TransactionState
}.

(** ** State and monad *)

(** The file's two static variables, the configuration variable it reads,
    and the log of its external calls (oldest first). *)
Record State := {
  workerConnectionList : list TransactionConnection;
  isXactCallbackRegistered : bool;
  MultiShardCommitProtocol : CommitProtocolType;
  trace : list event
}.

(** Backend start: [workerConnectionList = NIL],
    [isXactCallbackRegistered = false]. *)
Definition initial_state (protocol : CommitProtocolType) : State :=
  {| workerConnectionList := [];
     isXactCallbackRegistered := false;
     MultiShardCommitProtocol := protocol;
     trace := [] |}.

(** A C routine either returns or leaves through [ereport(ERROR, ...)]; the
    static variables keep whatever was written before the jump. *)
Inductive Outcome (A : Type) :=
| Normal (a : A)
| Raised (e : ErrorData).
Arguments Raised {A} e.

Definition M (A : Type) := State -> Outcome A * State.

Definition ret {A} (a : A) : M A := fun s => (Normal a, s).

Definition bind {A B} (m : M A) (k : A -> M B) : M B :=
  fun s =>
    match m s with
    | (Normal a, s') => k a s'
    | (Raised e, s') => (Raised e, s')
    end.

Definition ereport {A} (e : ErrorData) : M A := fun s => (Raised e, s).

Declare Scope wt_scope.
Delimit Scope wt_scope with wt.
Notation "x <- m ;; k" := (bind m (fun x => k))
  (at level 61, m at next level, right associativity) : wt_scope.
Notation "m ;; k" := (bind m (fun _ => k))
  (at level 61, right associativity) : wt_scope.
Open Scope wt_scope.

(** [foreach(cell, l) { body }] *)
Fixpoint foreach {A} (l : list A) (body : A -> M unit) : M unit :=
  match l with
  | [] => ret tt
  | x :: l' => body x ;; foreach l' body
  end.

Definition log (ev : event) (s : State) : State :=
  {| workerConnectionList := workerConnectionList s;
     isXactCallbackRegistered := isXactCallbackRegistered s;
     MultiShardCommitProtocol := MultiShardCommitProtocol s;
     trace := trace s ++ [ev] |}.

Definition read_workerConnectionList : M (list TransactionConnection) :=
  fun s => (Normal (workerConnectionList s), s).

Definition write_workerConnectionList (l : list TransactionConnection) : M unit :=
  fun s => (Normal tt,
            {| workerConnectionList := l;
               isXactCallbackRegistered := isXactCallbackRegistered s;
               MultiShardCommitProtocol := MultiShardCommitProtocol s;
               trace := trace s |}).

Definition read_isXactCallbackRegistered : M bool :=
  fun s => (Normal (isXactCallbackRegistered s), s).

Definition write_isXactCallbackRegistered (b : bool) : M unit :=
  fun s => (Normal tt,
            {| workerConnectionList := workerConnectionList s;
               isXactCallbackRegistered := b;
               MultiShardCommitProtocol := MultiShardCommitProtocol s;
               trace := trace s |}).

Definition read_MultiShardCommitProtocol : M CommitProtocolType :=
  fun s => (Normal (MultiShardCommitProtocol s), s).

(** What a helper leaves behind in the handles it was given. *)
Fixpoint setTransactionStates (l : list TransactionConnection)
         (states : list TransactionState) : list TransactionConnection :=
  match l, states with
  | tc :: l', st :: states' =>
      {| connectionId := connectionId tc;
         transactionState := st;
         connection := connection tc |} :: setTransactionStates l' states'
  | _, _ => l
  end.

Definition is_COMMIT_PROTOCOL_2PC (p : CommitProtocolType) : bool :=
  match p with
  | COMMIT_PROTOCOL_2PC => true
  | COMMIT_PROTOCOL_1PC => false
  end.

Section WorkerTransaction.

Variable E : Env.

(** *** External calls, each logged in the trace *)

Definition WorkerNodeList : M (list WorkerNode) :=
  fun s => (Normal (env_WorkerNodeList E (trace s)), log EvWorkerNodeList s).

Definition CloseConnections (connectionList : list TransactionConnection)
  : M unit :=
  fun s => (Normal tt, log (EvCloseConnections connectionList) s).

Definition GetOrEstablishConnection (nodeName : string) (nodePort : Z)
  : M PGconn :=
  fun s => (Normal (env_GetOrEstablishConnection E (trace s) nodeName nodePort),
            log (EvGetOrEstablishConnection nodeName nodePort) s).

Definition PQexec (conn : PGconn) (command : string) : M PGresult :=
  fun s => (Normal (env_PQexec E (trace s) conn command),
            log (EvPQexec conn command) s).

Definition PQsendQuery (conn : PGconn) (command : string) : M Z :=
  fun s => (Normal (env_PQsendQuery E (trace s) conn command),
            log (EvPQsendQuery conn command) s).

Definition PQgetResult (conn : PGconn) : M PGresult :=
  fun s => (Normal (env_PQgetResult E (trace s) conn),
            log (EvPQgetResult conn) s).

Definition ConnectionGetOptionValue (conn : PGconn) (keyword : string)
  : string :=
  env_ConnectionGetOptionValue E conn keyword.

(** Emits a warning about the remote failure and returns. *)
Definition ReportRemoteError (conn : PGconn) (result : PGresult) : M unit :=
  fun s => (Normal tt, log (EvReportRemoteError conn result) s).

Definition RegisterXactCallback : M unit :=
  fun s => (Normal tt, log EvRegisterXactCallback s).

(** The helpers are only ever handed [workerConnectionList] itself, a list
    of pointers to the registered handles, so the states they write are
    visible through the registry afterwards. *)
Definition write_states (states : list TransactionState) (s : State) : State :=
  {| workerConnectionList :=
       setTransactionStates (workerConnectionList s) states;
     isXactCallbackRegistered := isXactCallbackRegistered s;
     MultiShardCommitProtocol := MultiShardCommitProtocol s;
     trace := trace s |}.

Definition PrepareRemoteTransactions
           (connectionList : list TransactionConnection) : M unit :=
  fun s =>
    let answer := env_PrepareRemoteTransactions E (trace s) connectionList in
    let s' := write_states (fst answer)
                (log (EvPrepareRemoteTransactions connectionList) s) in
    match snd answer with
    | None => (Normal tt, s')
    | Some e => (Raised e, s')
    end.

Definition CommitRemoteTransactions
           (connectionList : list TransactionConnection)
           (stopOnFailure : bool) : M unit :=
  fun s =>
    let states :=
      env_CommitRemoteTransactions E (trace s) connectionList stopOnFailure in
    (Normal tt,
     write_states states
       (log (EvCommitRemoteTransactions connectionList stopOnFailure) s)).

Definition AbortRemoteTransactions
           (connectionList : list TransactionConnection) : M unit :=
  fun s =>
    let states := env_AbortRemoteTransactions E (trace s) connectionList in
    (Normal tt,
     write_states states (log (EvAbortRemoteTransactions connectionList) s)).

(** *** OpenWorkerTransactions *)

(** The [foreach(workerNodeCell, workerList)] loop, with the local
    [connectionList] as accumulator. *)
Fixpoint open_loop (workerList : list WorkerNode)
         (connectionList : list TransactionConnection)
  : M (list TransactionConnection) :=
  match workerList with
  | [] => ret connectionList
  | workerNode :: rest =>
      let nodeName := workerName workerNode in
      let nodePort := workerPort workerNode in
      conn <- GetOrEstablishConnection nodeName nodePort ;;
      (if Z.eqb conn NULL
       then ereport (errmsg_could_not_open_connection nodeName nodePort)
       else ret tt) ;;
      result <- PQexec conn "BEGIN" ;;
      (if not_COMMAND_OK (PQresultStatus result)
       then ReportRemoteError conn result ;;
            ereport (errmsg_could_not_start_transaction nodeName nodePort)
       else ret tt) ;;
      let transactionConnection :=
        {| connectionId := 0;
           transactionState := TRANSACTION_STATE_OPEN;
           connection := conn |} in
      open_loop rest (connectionList ++ [transactionConnection])
  end.

Definition OpenWorkerTransactions : M (list TransactionConnection) :=
  workerList <- WorkerNodeList ;;
  let workerCount := List.length workerList in
  cached <- read_workerConnectionList ;;
  let workerConnectionCount := List.length cached in
  (* a new node is added to the cluster, re-open the connections *)
  (if negb (Nat.eqb workerCount workerConnectionCount)
   then CloseConnections cached ;; write_workerConnectionList []
   else ret tt) ;;
  cached <- read_workerConnectionList ;;
  match cached with
  | _ :: _ => ret cached
  | [] =>
      connectionList <- open_loop workerList [] ;;
      registered <- read_isXactCallbackRegistered ;;
      (if negb registered
       then RegisterXactCallback ;; write_isXactCallbackRegistered true
       else ret tt) ;;
      write_workerConnectionList connectionList ;;
      ret connectionList
  end.

(** *** The two dispatchers *)

(** Body of the loop of [SendCommandToWorkersInOrder]. *)
Definition execute_on_worker (command : string)
           (transactionConnection : TransactionConnection) : M unit :=
  let conn := connection transactionConnection in
  result <- PQexec conn command ;;
  if not_COMMAND_OK (PQresultStatus result)
  then
    let nodeName := ConnectionGetOptionValue conn "host" in
    let nodePort := ConnectionGetOptionValue conn "port" in
    ReportRemoteError conn result ;;
    ereport (errmsg_failed_to_send nodeName nodePort)
  else ret tt.

Definition SendCommandToWorkersInOrder (command : string) : M unit :=
  connectionList <- OpenWorkerTransactions ;;
  foreach connectionList (execute_on_worker command).

(** Body of the first loop of [SendCommandToWorkersInParallel]. *)
Definition submit_to_worker (command : string)
           (transactionConnection : TransactionConnection) : M unit :=
  let conn := connection transactionConnection in
  querySent <- PQsendQuery conn command ;;
  if Z.eqb querySent 0
  then
    let nodeName := ConnectionGetOptionValue conn "host" in
    let nodePort := ConnectionGetOptionValue conn "port" in
    ReportRemoteError conn None ;;
    ereport (errmsg_failed_to_send nodeName nodePort)
  else ret tt.

(** Body of its second loop. *)
Definition drain_worker (transactionConnection : TransactionConnection)
  : M unit :=
  let conn := connection transactionConnection in
  result <- PQgetResult conn ;;
  (if not_COMMAND_OK (PQresultStatus result)
   then
     let nodeName := ConnectionGetOptionValue conn "host" in
     let nodePort := ConnectionGetOptionValue conn "port" in
     ReportRemoteError conn result ;;
     ereport (errmsg_failed_to_apply nodeName nodePort)
   else ret tt) ;;
  (* clear NULL result *)
  _ <- PQgetResult conn ;;
  ret tt.

Definition SendCommandToWorkersInParallel (command : string) : M unit :=
  connectionList <- OpenWorkerTransactions ;;
  foreach connectionList (submit_to_worker command) ;;
  foreach connectionList drain_worker.

(** *** CompleteWorkerTransactions *)

Definition CompleteWorkerTransactions (ev : XactEvent) : M unit :=
  cached <- read_workerConnectionList ;;
  match cached with
  | [] => (* nothing to do *) ret tt
  | _ :: _ =>
      match ev with
      | XACT_EVENT_PRE_COMMIT =>
          protocol <- read_MultiShardCommitProtocol ;;
          if is_COMMIT_PROTOCOL_2PC protocol
          then PrepareRemoteTransactions cached
          else ret tt
      | XACT_EVENT_COMMIT =>
          CommitRemoteTransactions cached false ;;
          write_workerConnectionList []
      | XACT_EVENT_ABORT =>
          AbortRemoteTransactions cached ;;
          write_workerConnectionList []
      | _ => ret tt
      end
  end.

(** PostgreSQL invokes the callback for a transaction event only once it has
    been registered. *)
Definition CallXactCallbacks (ev : XactEvent) : M unit :=
  registered <- read_isXactCallbackRegistered ;;
  if registered then CompleteWorkerTransactions ev else ret tt.

End WorkerTransaction.

(** ** Reading a trace *)

(** The [PQexec] calls of a trace, oldest first. *)
Definition executed (evs : list event) : list (PGconn * string) :=
  flat_map (fun ev => match ev with
                      | EvPQexec c command => [(c, command)]
                      | _ => []
                      end) evs.

(** The [PQsendQuery] calls of a trace. *)
Definition submitted (evs : list event) : list (PGconn * string) :=
  flat_map (fun ev => match ev with
                      | EvPQsendQuery c command => [(c, command)]
                      | _ => []
                      end) evs.

(** The [PQgetResult] calls of a trace. *)
Definition drained (evs : list event) : list PGconn :=
  flat_map (fun ev => match ev with
                      | EvPQgetResult c => [c]
                      | _ => []
                      end) evs.

(** The nodes a connection was asked for. *)
Definition requested (evs : list event) : list (string * Z) :=
  flat_map (fun ev => match ev with
                      | EvGetOrEstablishConnection n p => [(n, p)]
                      | _ => []
                      end) evs.

(** The handle lists passed to [PrepareRemoteTransactions]. *)
Definition prepared (evs : list event) : list (list TransactionConnection) :=
  flat_map (fun ev => match ev with
                      | EvPrepareRemoteTransactions l => [l]
                      | _ => []
                      end) evs.

(** How often [RegisterXactCallback] was called. *)
Definition registrations (evs : list event) : nat :=
  List.length (flat_map (fun ev => match ev with
                                   | EvRegisterXactCallback => [tt]
                                   | _ => []
                                   end) evs).

(** Calls that reach a worker or the connection cache: everything but the
    catalogue read and the callback registration. *)
Definition is_remote (ev : event) : bool :=
  match ev with
  | EvWorkerNodeList | EvRegisterXactCallback => false
  | _ => true
  end.

Definition remote (evs : list event) : list event := filter is_remote evs.

(** The calls a successful pass of the opening loop makes for the workers
    [ws], given the handles [hs] it builds. *)
Fixpoint open_events (ws : list WorkerNode) (hs : list TransactionConnection)
  : list event :=
  match ws, hs with
  | w :: ws', h :: hs' =>
      EvGetOrEstablishConnection (workerName w) (workerPort w)
        :: EvPQexec (connection h) "BEGIN"
        :: open_events ws' hs'
  | _, _ => []
  end.

Definition node_of (w : WorkerNode) : string * Z := (workerName w, workerPort w).

Definition exec_on (command : string) (h : TransactionConnection) : event :=
  EvPQexec (connection h) command.

Definition send_on (command : string) (h : TransactionConnection) : event :=
  EvPQsendQuery (connection h) command.

(** Draining one handle: the result, then the trailing null result. *)
Definition drain_of (h : TransactionConnection) : list event :=
  [EvPQgetResult (connection h); EvPQgetResult (connection h)].

(** The answers the workers give when [command] is executed on the handles
    [hs] one after the other, after the calls in [t]. *)
Fixpoint exec_answers (E : Env) (t : list event) (command : string)
         (hs : list TransactionConnection) : list PGresult :=
  match hs with
  | [] => []
  | h :: hs' =>
      env_PQexec E t (connection h) command
        :: exec_answers E (t ++ [exec_on command h]) command hs'
  end.

(** The same for the submissions of the parallel dispatcher. *)
Fixpoint send_answers (E : Env) (t : list event) (command : string)
         (hs : list TransactionConnection) : list Z :=
  match hs with
  | [] => []
  | h :: hs' =>
      env_PQsendQuery E t (connection h) command
        :: send_answers E (t ++ [send_on command h]) command hs'
  end.

(** And for its drain phase: the first result fetched from each handle. *)
Fixpoint drain_answers (E : Env) (t : list event)
         (hs : list TransactionConnection) : list PGresult :=
  match hs with
  | [] => []
  | h :: hs' =>
      env_PQgetResult E t (connection h)
        :: drain_answers E (t ++ drain_of h) hs'
  end.

Definition COMMAND_OK (result : PGresult) : Prop :=
  PQresultStatus result = PGRES_COMMAND_OK.

Definition node_host (E : Env) (h : TransactionConnection) : string :=
  ConnectionGetOptionValue E (connection h) "host".

Definition node_port (E : Env) (h : TransactionConnection) : string :=
  ConnectionGetOptionValue E (connection h) "port".

(** The part of [OpenWorkerTransactions] after the cache test. *)
Definition populate (E : Env) (workerList : list WorkerNode)
  : M (list TransactionConnection) :=
  connectionList <- open_loop E workerList [] ;;
  registered <- read_isXactCallbackRegistered ;;
  (if negb registered
   then RegisterXactCallback ;; write_isXactCallbackRegistered true
   else ret tt) ;;
  write_workerConnectionList connectionList ;;
  ret connectionList.

(** What a backend does with this file: dispatch commands and receive
    transaction events. *)
Inductive operation :=
| OpSendInOrder (command : string)
| OpSendInParallel (command : string)
| OpXactEvent (ev : XactEvent).

Definition perform (E : Env) (op : operation) : M unit :=
  match op with
  | OpSendInOrder command => SendCommandToWorkersInOrder E command
  | OpSendInParallel command => SendCommandToWorkersInParallel E command
  | OpXactEvent ev => CallXactCallbacks E ev
  end.

(** A backend keeps running after an error: the static variables survive. *)
Fixpoint run (E : Env) (ops : list operation) (s : State) : State :=
  match ops with
  | [] => s
  | op :: ops' => run E ops' (snd (perform E op s))
  end.

(** The state in which re-population starts after a change of the worker
    count: the catalogue was read, the cached handles were handed to
    [CloseConnections], and the registry is [NIL]. *)
Definition reopened (s : State) : State :=
  {| workerConnectionList := [];
     isXactCallbackRegistered := isXactCallbackRegistered s;
     MultiShardCommitProtocol := MultiShardCommitProtocol s;
     trace := trace s ++ [EvWorkerNodeList;
                          EvCloseConnections (workerConnectionList s)] |}.

(** [gaps] lists, for each of a series of registry acquisitions, the
    external calls made by other code since the previous one. *)
Fixpoint acquire_after (E : Env) (gaps : list (list event)) (s : State)
  : list (Outcome (list TransactionConnection)) * State :=
  match gaps with
  | [] => ([], s)
  | gap :: gaps' =>
      let s0 := {| workerConnectionList := workerConnectionList s;
                   isXactCallbackRegistered := isXactCallbackRegistered s;
                   MultiShardCommitProtocol := MultiShardCommitProtocol s;
                   trace := trace s ++ gap |} in
      let (r, s1) := OpenWorkerTransactions E s0 in
      let (rs, s2) := acquire_after E gaps' s1 in
      (r :: rs, s2)
  end.

(** ** The answers met by the opening loop *)

(** The connection the provider answers for [w] when asked after the calls
    [t]. *)
Definition worker_connection (E : Env) (t : list event) (w : WorkerNode)
  : PGconn :=
  env_GetOrEstablishConnection E t (workerName w) (workerPort w).

(** The answer to the BEGIN that is then sent on that connection. *)
Definition worker_begin (E : Env) (t : list event) (w : WorkerNode)
  : PGresult :=
  env_PQexec E
    (t ++ [EvGetOrEstablishConnection (workerName w) (workerPort w)])
    (worker_connection E t w) "BEGIN".

(** [w] yields a connection and accepts BEGIN. *)
Definition willing (E : Env) (t : list event) (w : WorkerNode) : bool :=
  negb (Z.eqb (worker_connection E t w) NULL)
  && negb (not_COMMAND_OK (PQresultStatus (worker_begin E t w))).

(** The two calls made for a willing worker. *)
Definition worker_events (E : Env) (t : list event) (w : WorkerNode)
  : list event :=
  [EvGetOrEstablishConnection (workerName w) (workerPort w);
   EvPQexec (worker_connection E t w) "BEGIN"].

(** Every worker of [ws] is willing when the workers are asked one after
    the other, starting after the calls [t]. *)
Fixpoint all_willing (E : Env) (t : list event) (ws : list WorkerNode)
  : bool :=
  match ws with
  | [] => true
  | w :: ws' => willing E t w && all_willing E (t ++ worker_events E t w) ws'
  end.

(** The handles this yields: one per worker, in list order, each over the
    connection the provider answered for that worker. *)
Fixpoint open_handles (E : Env) (t : list event) (ws : list WorkerNode)
  : list TransactionConnection :=
  match ws with
  | [] => []
  | w :: ws' =>
      {| connectionId := 0;
         transactionState := TRANSACTION_STATE_OPEN;
         connection := worker_connection E t w |}
        :: open_handles E (t ++ worker_events E t w) ws'
  end.

(** The error text for a worker that is not willing: it names the worker. *)
Definition refusal_error (E : Env) (t : list event) (w : WorkerNode)
  : ErrorData :=
  if Z.eqb (worker_connection E t w) NULL
  then errmsg_could_not_open_connection (workerName w) (workerPort w)
  else errmsg_could_not_start_transaction (workerName w) (workerPort w).

(** The calls made for such a worker before the error is raised. *)
Definition refusal_events (E : Env) (t : list event) (w : WorkerNode)
  : list event :=
  if Z.eqb (worker_connection E t w) NULL
  then [EvGetOrEstablishConnection (workerName w) (workerPort w)]
  else [EvGetOrEstablishConnection (workerName w) (workerPort w);
        EvPQexec (worker_connection E t w) "BEGIN";
        EvReportRemoteError (worker_connection E t w) (worker_begin E t w)].

(** ** Example clusters *)

Module Cluster.

Local Open Scope string_scope.
Local Open Scope Z_scope.

Definition worker1 : WorkerNode := {| workerName := "worker-1"; workerPort := 5432 |}.
Definition worker2 : WorkerNode := {| workerName := "worker-2"; workerPort := 5432 |}.
Definition worker3 : WorkerNode := {| workerName := "worker-3"; workerPort := 5433 |}.

(** Connection addresses, one per node name. *)
Definition address (nodeName : string) : PGconn :=
  if String.eqb nodeName "worker-1" then 101
  else if String.eqb nodeName "worker-2" then 102
  else if String.eqb nodeName "worker-3" then 103
  else NULL.

Definition option_value (conn : PGconn) (keyword : string) : string :=
  if String.eqb keyword "host" then
    if Z.eqb conn 101 then "worker-1"
    else if Z.eqb conn 102 then "worker-2"
    else if Z.eqb conn 103 then "worker-3"
    else ""
  else if String.eqb keyword "port" then
    if Z.eqb conn 103 then "5433" else "5432"
  else "".

Definition handle (conn : PGconn) : TransactionConnection :=
  {| connectionId := 0;
     transactionState := TRANSACTION_STATE_OPEN;
     connection := conn |}.

(** A cluster described by its worker list and by the answers of its
    workers; the helpers leave every handle in the given state. *)
Definition cluster (workers : list event -> list WorkerNode)
           (exec : PGconn -> string -> PGresult)
           (send : PGconn -> Z)
           (result : PGconn -> PGresult)
           (prepare_error : option ErrorData) : Env :=
  {| env_WorkerNodeList := workers;
     env_GetOrEstablishConnection := fun _ nodeName _ => address nodeName;
     env_PQexec := fun _ => exec;
     env_PQsendQuery := fun _ conn _ => send conn;
     env_PQgetResult := fun _ => result;
     env_ConnectionGetOptionValue := option_value;
     env_PrepareRemoteTransactions :=
       fun _ l =>
         (map (fun _ => match prepare_error with
                        | None => TRANSACTION_STATE_PREPARED
                        | Some _ => TRANSACTION_STATE_FAILED
                        end) l,
          prepare_error);
     env_CommitRemoteTransactions :=
       fun _ l _ => map (fun _ => TRANSACTION_STATE_COMMITTED) l;
     env_AbortRemoteTransactions :=
       fun _ l => map (fun _ => TRANSACTION_STATE_ABORTED) l |}.

Definition ok : PGresult := Some PGRES_COMMAND_OK.
Definition failure : PGresult := Some PGRES_FATAL_ERROR.

(** Two workers, everything succeeds. *)
Definition healthy : Env :=
  cluster (fun _ => [worker1; worker2]) (fun _ _ => ok) (fun _ => 1%Z)
          (fun _ => ok) None.

(** Three workers, everything succeeds. *)
Definition healthy3 : Env :=
  cluster (fun _ => [worker1; worker2; worker3]) (fun _ _ => ok)
          (fun _ => 1%Z) (fun _ => ok) None.

(** Two workers; the second refuses BEGIN. *)
Definition begin_refused : Env :=
  cluster (fun _ => [worker1; worker2])
          (fun conn command =>
             if Z.eqb conn 102 && String.eqb command "BEGIN"
             then failure else ok)
          (fun _ => 1%Z) (fun _ => ok) None.

(** Three workers; the second refuses every command but BEGIN. *)
Definition command_refused : Env :=
  cluster (fun _ => [worker1; worker2; worker3])
          (fun conn command =>
             if Z.eqb conn 102 && negb (String.eqb command "BEGIN")
             then failure else ok)
          (fun _ => 1%Z) (fun _ => ok) None.


(** No worker at all. *)
Definition empty : Env :=
  cluster (fun _ => []) (fun _ _ => ok) (fun _ => 1%Z) (fun _ => ok) None.


(** Two workers; PREPARE fails. *)
Definition prepare_refused : Env :=
  cluster (fun _ => [worker1; worker2]) (fun _ _ => ok) (fun _ => 1%Z)
          (fun _ => ok) (Some "failed to prepare transaction"%string).

(** A backend that has not yet touched any worker. *)
Definition start : State := initial_state COMMIT_PROTOCOL_1PC.

Definition two_handles : list TransactionConnection := [handle 101; handle 102].

Definition three_handles : list TransactionConnection :=
  [handle 101; handle 102; handle 103].

(** A transaction that already holds handles for both workers. *)
Definition in_transaction (protocol : CommitProtocolType) : State :=
  {| workerConnectionList := two_handles;
     isXactCallbackRegistered := true;
     MultiShardCommitProtocol := protocol;
     trace := [EvWorkerNodeList;
               EvCloseConnections [];
               EvGetOrEstablishConnection "worker-1" 5432;
               EvPQexec 101 "BEGIN";
               EvGetOrEstablishConnection "worker-2" 5432;
               EvPQexec 102 "BEGIN";
               EvRegisterXactCallback] |}.

(** That transaction after its abort. *)
Definition aborted : State :=
  {| workerConnectionList := [];
     isXactCallbackRegistered := true;
     MultiShardCommitProtocol := COMMIT_PROTOCOL_2PC;
     trace := trace (in_transaction COMMIT_PROTOCOL_2PC)
                ++ [EvAbortRemoteTransactions two_handles] |}.

(** Calls made before each of three further acquisitions: nothing, a
    command executed on both workers, nothing again. *)
Definition dispatches : list (list event) :=
  [[];
   [EvPQexec 101 "CREATE TABLE t"; EvPQexec 102 "CREATE TABLE t"];
   []].

(** Two transactions, the first committed and the second aborted. *)
Definition session : list operation :=
  [OpSendInOrder "CREATE TABLE t";
   OpXactEvent XACT_EVENT_PRE_COMMIT;
   OpXactEvent XACT_EVENT_COMMIT;
   OpSendInParallel "DROP TABLE t";
   OpXactEvent XACT_EVENT_ABORT].

(** The same with three workers, one-phase commit configured. *)
Definition in_transaction3 : State :=
  {| workerConnectionList := three_handles;
     isXactCallbackRegistered := true;
     MultiShardCommitProtocol := COMMIT_PROTOCOL_1PC;
     trace := [EvWorkerNodeList;
               EvCloseConnections [];
               EvGetOrEstablishConnection "worker-1" 5432;
               EvPQexec 101 "BEGIN";
               EvGetOrEstablishConnection "worker-2" 5432;
               EvPQexec 102 "BEGIN";
               EvGetOrEstablishConnection "worker-3" 5433;
               EvPQexec 103 "BEGIN";
               EvRegisterXactCallback] |}.

End Cluster.

(** [s'] differs from [s] at most in its trace. *)
Definition same_statics (s s' : State) : Prop :=
  workerConnectionList s' = workerConnectionList s /\
  isXactCallbackRegistered s' = isXactCallbackRegistered s /\
  MultiShardCommitProtocol s' = MultiShardCommitProtocol s.

(** A computation that leaves the static variables alone and never
    registers the callback. *)
Definition quiet {A} (m : M A) : Prop :=
  forall s r s',
    m s = (r, s') ->
    same_statics s s' /\
    exists evs, trace s' = trace s ++ evs /\ registrations evs = 0.

(** The flag tells whether the callback has been registered, which happens
    at most once, and handles are only ever cached once it is set. *)
Definition callback_invariant (s : State) : Prop :=
  registrations (trace s) = (if isXactCallbackRegistered s then 1 else 0) /\
  (workerConnectionList s <> [] -> isXactCallbackRegistered s = true).

(** ** Basic facts *)

Example errmsg_could_not_start_transaction_example :
  errmsg_could_not_start_transaction "worker-2" 5432%Z
  = "could not start transaction on worker-2:5432"%string.
Proof. reflexivity. Qed.

Example errmsg_failed_to_send_example :
  errmsg_failed_to_send
    (node_host Cluster.healthy (Cluster.handle 102%Z))
    (node_port Cluster.healthy (Cluster.handle 102%Z))
  = "failed to send metadata change to worker-2:5432"%string.
Proof. reflexivity. Qed.

Lemma executed_app a b : executed (a ++ b) = executed a ++ executed b.
Proof. apply flat_map_app. Qed.

Lemma submitted_app a b : submitted (a ++ b) = submitted a ++ submitted b.
Proof. apply flat_map_app. Qed.

Lemma drained_app a b : drained (a ++ b) = drained a ++ drained b.
Proof. apply flat_map_app. Qed.

Lemma requested_app a b : requested (a ++ b) = requested a ++ requested b.
Proof. apply flat_map_app. Qed.

Lemma registrations_app a b :
  registrations (a ++ b) = registrations a + registrations b.
Proof. unfold registrations. now rewrite flat_map_app, length_app. Qed.

Lemma setTransactionStates_length l : forall states,
  List.length (setTransactionStates l states) = List.length l.
Proof.
  induction l as [|tc l IH]; intros [|st states]; simpl; auto.
Qed.

Lemma setTransactionStates_connection l : forall states,
  map connection (setTransactionStates l states) = map connection l.
Proof.
  induction l as [|tc l IH]; intros [|st states]; simpl; auto.
  now rewrite IH.
Qed.

Lemma open_events_requested ws : forall hs,
  List.length hs = List.length ws ->
  requested (open_events ws hs) = map node_of ws.
Proof.
  induction ws as [|w ws IH]; intros [|h hs] Hlen;
    simpl in *; try discriminate; auto.
  unfold node_of at 1. f_equal. apply IH. lia.
Qed.

Lemma open_events_executed ws : forall hs,
  List.length hs = List.length ws ->
  executed (open_events ws hs) = map (fun h => (connection h, "BEGIN"%string)) hs.
Proof.
  induction ws as [|w ws IH]; intros [|h hs] Hlen;
    simpl in *; try discriminate; auto.
  f_equal. apply IH. lia.
Qed.

Lemma open_events_registrations ws : forall hs,
  registrations (open_events ws hs) = 0.
Proof.
  induction ws as [|w ws IH]; intros [|h hs]; simpl; auto.
  apply (IH hs).
Qed.

(** ** Proof tools *)

(** Unfolds the monad and the logged calls. *)
Ltac run_monad :=
  cbv [bind ret ereport
       WorkerNodeList CloseConnections GetOrEstablishConnection PQexec
       PQsendQuery PQgetResult ReportRemoteError RegisterXactCallback
       read_workerConnectionList write_workerConnectionList
       read_isXactCallbackRegistered write_isXactCallbackRegistered
       read_MultiShardCommitProtocol] in *.

(** Brings both sides of an equation between traces to the same shape. *)
Ltac trace_eq :=
  simpl; repeat rewrite <- app_assoc; simpl; try reflexivity.

Ltac flatten_in H :=
  simpl in H; repeat rewrite <- app_assoc in H; simpl in H.

(** ** The opening loop *)

Section Registry.

Variable E : Env.

(** The loop touches neither static variable; it either builds one open
    handle per worker, in list order, or stops at the first worker whose
    connection is absent or whose BEGIN is refused. *)
Lemma open_loop_spec workerList : forall acc s r s',
  open_loop E workerList acc s = (r, s') ->
  workerConnectionList s' = workerConnectionList s /\
  isXactCallbackRegistered s' = isXactCallbackRegistered s /\
  MultiShardCommitProtocol s' = MultiShardCommitProtocol s /\
  match r with
  | Normal l =>
      exists hs,
        l = acc ++ hs /\
        List.length hs = List.length workerList /\
        trace s' = trace s ++ open_events workerList hs
  | Raised e =>
      exists pre w post hs,
        workerList = pre ++ w :: post /\
        List.length hs = List.length pre /\
        ((e = errmsg_could_not_open_connection (workerName w) (workerPort w) /\
          trace s' = trace s ++ open_events pre hs
                       ++ [EvGetOrEstablishConnection (workerName w) (workerPort w)])
         \/
         (exists c result,
            e = errmsg_could_not_start_transaction (workerName w) (workerPort w) /\
            trace s' = trace s ++ open_events pre hs
                         ++ [EvGetOrEstablishConnection (workerName w) (workerPort w);
                             EvPQexec c "BEGIN";
                             EvReportRemoteError c result]))
  end.
Proof.
  induction workerList as [|w ws IH]; intros acc s r s' Hrun.
  - run_monad. simpl in Hrun. injection Hrun as <- <-.
    repeat split. exists []. now rewrite !app_nil_r.
  - simpl in Hrun. run_monad. simpl in Hrun.
    set (c := env_GetOrEstablishConnection E (trace s) (workerName w) (workerPort w)) in *.
    destruct (Z.eqb c NULL) eqn:Hnull.
    + injection Hrun as <- <-. simpl. repeat split.
      exists [], w, ws, []. repeat split. left. split; reflexivity.
    + set (s1 := log (EvGetOrEstablishConnection (workerName w) (workerPort w)) s) in *.
      set (result := env_PQexec E (trace s1) c "BEGIN") in *.
      destruct (not_COMMAND_OK (PQresultStatus result)) eqn:Hst.
      * injection Hrun as <- <-. simpl. repeat split.
        exists [], w, ws, []. repeat split. right. exists c, result.
        split; [reflexivity|]. trace_eq.
      * apply IH in Hrun. destruct Hrun as (Hl & Hf & Hp & Hr).
        simpl in Hl, Hf, Hp. repeat split; auto.
        destruct r as [l|e].
        -- destruct Hr as (hs & -> & Hlen & Ht).
           eexists (_ :: hs). split; [trace_eq|].
           split; [simpl; lia|].
           rewrite Ht. trace_eq.
        -- destruct Hr as (pre & w' & post & hs & -> & Hlen & Hcase).
           exists (w :: pre), w', post,
             ({| connectionId := 0; transactionState := TRANSACTION_STATE_OPEN;
                 connection := c |} :: hs).
           split; [reflexivity|]. split; [simpl; lia|].
           destruct Hcase as [[-> Ht]|(c' & result' & -> & Ht)]; [left|right].
           ++ split; [reflexivity|]. rewrite Ht. trace_eq.
           ++ exists c', result'. split; [reflexivity|].
              rewrite Ht. trace_eq.
Qed.

(** The tail of [OpenWorkerTransactions]: on success the complete list is
    stored and the callback is registered unless it already was; on failure
    both static variables are left as they were. *)
Lemma populate_spec workerList s r s' :
  populate E workerList s = (r, s') ->
  MultiShardCommitProtocol s' = MultiShardCommitProtocol s /\
  match r with
  | Normal l =>
      workerConnectionList s' = l /\
      List.length l = List.length workerList /\
      isXactCallbackRegistered s' = true /\
      trace s' = trace s ++ open_events workerList l
                   ++ (if isXactCallbackRegistered s then []
                       else [EvRegisterXactCallback])
  | Raised e =>
      workerConnectionList s' = workerConnectionList s /\
      isXactCallbackRegistered s' = isXactCallbackRegistered s /\
      exists pre w post hs,
        workerList = pre ++ w :: post /\
        List.length hs = List.length pre /\
        ((e = errmsg_could_not_open_connection (workerName w) (workerPort w) /\
          trace s' = trace s ++ open_events pre hs
                       ++ [EvGetOrEstablishConnection (workerName w) (workerPort w)])
         \/
         (exists c result,
            e = errmsg_could_not_start_transaction (workerName w) (workerPort w) /\
            trace s' = trace s ++ open_events pre hs
                         ++ [EvGetOrEstablishConnection (workerName w) (workerPort w);
                             EvPQexec c "BEGIN";
                             EvReportRemoteError c result]))
  end.
Proof.
  unfold populate, bind at 1.
  destruct (open_loop E workerList [] s) as [[l|e] s1] eqn:Hloop;
    apply open_loop_spec in Hloop; destruct Hloop as (Hl & Hf & Hp & Hr).
  - destruct Hr as (hs & -> & Hlen & Ht). simpl.
    run_monad. rewrite Hf.
    destruct (isXactCallbackRegistered s); simpl; intros [= <- <-]; simpl;
      repeat split; auto; rewrite Ht; trace_eq.
    now rewrite app_nil_r.
  - intros [= <- <-]. auto.
Qed.

(** The three ways through the head of [OpenWorkerTransactions]. *)
Lemma OpenWorkerTransactions_cached s :
  workerConnectionList s <> [] ->
  List.length (env_WorkerNodeList E (trace s))
    = List.length (workerConnectionList s) ->
  OpenWorkerTransactions E s
  = (Normal (workerConnectionList s), log EvWorkerNodeList s).
Proof.
  intros Hne Hlen. unfold OpenWorkerTransactions. run_monad. simpl.
  rewrite Hlen, Nat.eqb_refl. simpl.
  destruct (workerConnectionList s); [contradiction|reflexivity].
Qed.

Lemma OpenWorkerTransactions_mismatch s :
  List.length (env_WorkerNodeList E (trace s))
    <> List.length (workerConnectionList s) ->
  OpenWorkerTransactions E s
  = populate E (env_WorkerNodeList E (trace s)) (reopened s).
Proof.
  intros Hlen. apply Nat.eqb_neq in Hlen.
  unfold OpenWorkerTransactions, populate. run_monad. simpl.
  rewrite Hlen. simpl. unfold reopened. rewrite <- app_assoc. reflexivity.
Qed.

Lemma OpenWorkerTransactions_empty s :
  workerConnectionList s = [] ->
  env_WorkerNodeList E (trace s) = [] ->
  OpenWorkerTransactions E s = populate E [] (log EvWorkerNodeList s).
Proof.
  intros Hnil Hws.
  unfold OpenWorkerTransactions, populate. run_monad. simpl.
  rewrite Hnil, Hws. simpl. rewrite Hnil. reflexivity.
Qed.

(** Every acquisition falls under one of the three. *)
Lemma OpenWorkerTransactions_cases s :
  (workerConnectionList s <> [] /\
   List.length (env_WorkerNodeList E (trace s))
     = List.length (workerConnectionList s)) \/
  List.length (env_WorkerNodeList E (trace s))
    <> List.length (workerConnectionList s) \/
  (workerConnectionList s = [] /\ env_WorkerNodeList E (trace s) = []).
Proof.
  destruct (Nat.eq_dec (List.length (env_WorkerNodeList E (trace s)))
                       (List.length (workerConnectionList s))) as [Heq|Hne];
    [|now right; left].
  destruct (workerConnectionList s) as [|h l] eqn:Hl.
  - right; right. split; auto. now apply length_zero_iff_nil.
  - left. split; [discriminate|assumption].
Qed.

End Registry.

(** ** The opening loop and the answers of the workers *)

Section Willing.

Variable E : Env.

Lemma open_events_open_handles_cons t w ws :
  open_events (w :: ws) (open_handles E t (w :: ws))
  = worker_events E t w
      ++ open_events ws (open_handles E (t ++ worker_events E t w) ws).
Proof. reflexivity. Qed.

Lemma open_handles_length ws : forall t,
  List.length (open_handles E t ws) = List.length ws.
Proof.
  induction ws as [|w ws IH]; intros t; simpl; [reflexivity|].
  now rewrite IH.
Qed.

Lemma willing_true t w :
  willing E t w = true ->
  Z.eqb (worker_connection E t w) NULL = false /\
  not_COMMAND_OK (PQresultStatus (worker_begin E t w)) = false.
Proof.
  unfold willing. intros H. apply andb_prop in H. destruct H as [H1 H2].
  split; [now apply negb_true_iff in H1|now apply negb_true_iff in H2].
Qed.

(** One turn of the loop for a willing worker. *)
Lemma open_loop_cons_willing w ws acc s :
  willing E (trace s) w = true ->
  open_loop E (w :: ws) acc s
  = open_loop E ws
      (acc ++ [{| connectionId := 0;
                  transactionState := TRANSACTION_STATE_OPEN;
                  connection := worker_connection E (trace s) w |}])
      {| workerConnectionList := workerConnectionList s;
         isXactCallbackRegistered := isXactCallbackRegistered s;
         MultiShardCommitProtocol := MultiShardCommitProtocol s;
         trace := trace s ++ worker_events E (trace s) w |}.
Proof.
  intros Hw. apply willing_true in Hw. destruct Hw as [Hc Hb].
  unfold worker_begin in Hb. unfold worker_connection in *.
  simpl open_loop. run_monad. simpl. rewrite Hc. simpl. rewrite Hb.
  unfold log, worker_events, worker_connection. simpl.
  now rewrite <- app_assoc.
Qed.

(** If every worker is willing the loop returns the handles of
    [open_handles], having made exactly the calls of [open_events]. *)
Lemma open_loop_willing workerList : forall acc s,
  all_willing E (trace s) workerList = true ->
  open_loop E workerList acc s
  = (Normal (acc ++ open_handles E (trace s) workerList),
     {| workerConnectionList := workerConnectionList s;
        isXactCallbackRegistered := isXactCallbackRegistered s;
        MultiShardCommitProtocol := MultiShardCommitProtocol s;
        trace := trace s
                   ++ open_events workerList
                        (open_handles E (trace s) workerList) |}).
Proof.
  induction workerList as [|w ws IH]; intros acc s Hall.
  - simpl. unfold ret. rewrite !app_nil_r. now destruct s.
  - simpl in Hall. apply andb_prop in Hall. destruct Hall as [Hw Hall].
    rewrite open_loop_cons_willing by assumption.
    rewrite IH by exact Hall.
    rewrite open_events_open_handles_cons. simpl open_handles. simpl trace.
    rewrite <- !app_assoc. reflexivity.
Qed.

(** If the workers of [pre] are willing and the next worker is not, the
    loop raises the error that names that worker, after the calls for
    [pre] and the ones that met the refusal. *)
Lemma open_loop_refused pre w post : forall acc s,
  all_willing E (trace s) pre = true ->
  willing E (trace s ++ open_events pre (open_handles E (trace s) pre)) w
  = false ->
  open_loop E (pre ++ w :: post) acc s
  = (Raised (refusal_error E
               (trace s ++ open_events pre (open_handles E (trace s) pre)) w),
     {| workerConnectionList := workerConnectionList s;
        isXactCallbackRegistered := isXactCallbackRegistered s;
        MultiShardCommitProtocol := MultiShardCommitProtocol s;
        trace := (trace s ++ open_events pre (open_handles E (trace s) pre))
                   ++ refusal_events E
                        (trace s
                           ++ open_events pre (open_handles E (trace s) pre))
                        w |}).
Proof.
  induction pre as [|v pre IH]; intros acc s Hall Hw.
  - simpl in Hw |- *. rewrite app_nil_r in Hw |- *.
    unfold willing in Hw. unfold refusal_error, refusal_events.
    unfold worker_begin in *. unfold worker_connection in *.
    run_monad. simpl.
    destruct (Z.eqb (env_GetOrEstablishConnection E (trace s) (workerName w)
                                                  (workerPort w)) NULL).
    + reflexivity.
    + simpl in Hw. apply negb_false_iff in Hw. cbn [trace log].
      rewrite Hw. unfold log. simpl. repeat rewrite <- app_assoc. reflexivity.
  - simpl in Hall. apply andb_prop in Hall. destruct Hall as [Hv Hall].
    rewrite open_events_open_handles_cons in Hw |- *.
    rewrite app_assoc in Hw. rewrite !(app_assoc (trace s)).
    change ((v :: pre) ++ w :: post) with (v :: (pre ++ w :: post)).
    rewrite open_loop_cons_willing by assumption.
    now rewrite IH.
Qed.

(** If not every worker is willing, there is a first one that is not. *)
Lemma all_willing_false ws : forall t,
  all_willing E t ws = false ->
  exists pre w post,
    ws = pre ++ w :: post /\
    all_willing E t pre = true /\
    willing E (t ++ open_events pre (open_handles E t pre)) w = false.
Proof.
  induction ws as [|v ws IH]; intros t Hall; [discriminate|].
  simpl in Hall. destruct (willing E t v) eqn:Hv.
  - simpl in Hall. apply IH in Hall.
    destruct Hall as (pre & w & post & -> & Hpre & Hw).
    exists (v :: pre), w, post. split; [reflexivity|]. split.
    + simpl. now rewrite Hv, Hpre.
    + rewrite open_events_open_handles_cons, app_assoc. exact Hw.
  - exists [], v, ws. split; [reflexivity|]. split; [reflexivity|].
    simpl. now rewrite app_nil_r.
Qed.

(** The same for the whole acquisition, when it has to populate. *)
Lemma OpenWorkerTransactions_willing s :
  workerConnectionList s = [] \/
  List.length (env_WorkerNodeList E (trace s))
    <> List.length (workerConnectionList s) ->
  all_willing E (trace (reopened s)) (env_WorkerNodeList E (trace s)) = true ->
  exists s',
    OpenWorkerTransactions E s
    = (Normal (open_handles E (trace (reopened s))
                 (env_WorkerNodeList E (trace s))), s') /\
    workerConnectionList s'
    = open_handles E (trace (reopened s)) (env_WorkerNodeList E (trace s)) /\
    isXactCallbackRegistered s' = true.
Proof.
  intros Hcase Hall.
  destruct (OpenWorkerTransactions_cases E s) as [[Hne Hlen]|[Hlen|[Hnil Hws]]].
  - destruct Hcase; contradiction.
  - rewrite OpenWorkerTransactions_mismatch by assumption.
    unfold populate, bind at 1. rewrite open_loop_willing by assumption.
    run_monad. simpl.
    destruct (isXactCallbackRegistered s) eqn:Hflag; simpl; eexists;
      (split; [reflexivity|split; [reflexivity|simpl; auto]]).
  - rewrite OpenWorkerTransactions_empty by assumption. rewrite Hws.
    unfold populate. run_monad. simpl.
    destruct (isXactCallbackRegistered s) eqn:Hflag; simpl; eexists;
      (split; [reflexivity|split; [reflexivity|simpl; auto]]).
Qed.

Lemma OpenWorkerTransactions_refused s pre w post :
  env_WorkerNodeList E (trace s) = pre ++ w :: post ->
  List.length (pre ++ w :: post) <> List.length (workerConnectionList s) ->
  all_willing E (trace (reopened s)) pre = true ->
  willing E (trace (reopened s)
               ++ open_events pre (open_handles E (trace (reopened s)) pre)) w
  = false ->
  OpenWorkerTransactions E s
  = (Raised (refusal_error E
               (trace (reopened s)
                  ++ open_events pre (open_handles E (trace (reopened s)) pre))
               w),
     {| workerConnectionList := [];
        isXactCallbackRegistered := isXactCallbackRegistered s;
        MultiShardCommitProtocol := MultiShardCommitProtocol s;
        trace := (trace (reopened s)
                    ++ open_events pre
                         (open_handles E (trace (reopened s)) pre))
                   ++ refusal_events E
                        (trace (reopened s)
                           ++ open_events pre
                                (open_handles E (trace (reopened s)) pre))
                        w |}).
Proof.
  intros Hws Hlen Hall Hw.
  rewrite OpenWorkerTransactions_mismatch by (now rewrite Hws).
  rewrite Hws. unfold populate, bind at 1.
  rewrite open_loop_refused by assumption. reflexivity.
Qed.

End Willing.

(** ** The dispatch loops *)

Section Dispatch.

Variable E : Env.

Lemma not_COMMAND_OK_true result :
  not_COMMAND_OK (PQresultStatus result) = true <-> ~ COMMAND_OK result.
Proof.
  unfold COMMAND_OK.
  destruct (PQresultStatus result); simpl; split; congruence.
Qed.

Lemma not_COMMAND_OK_false result :
  not_COMMAND_OK (PQresultStatus result) = false <-> COMMAND_OK result.
Proof.
  unfold COMMAND_OK.
  destruct (PQresultStatus result); simpl; split; congruence.
Qed.


Lemma execute_on_worker_step command h s :
  execute_on_worker E command h s
  = let result := env_PQexec E (trace s) (connection h) command in
    let s1 := log (exec_on command h) s in
    if not_COMMAND_OK (PQresultStatus result)
    then (Raised (errmsg_failed_to_send (node_host E h) (node_port E h)),
          log (EvReportRemoteError (connection h) result) s1)
    else (Normal tt, s1).
Proof.
  unfold execute_on_worker. run_monad. simpl.
  now destruct (not_COMMAND_OK _).
Qed.

Lemma submit_to_worker_step command h s :
  submit_to_worker E command h s
  = let querySent := env_PQsendQuery E (trace s) (connection h) command in
    let s1 := log (send_on command h) s in
    if Z.eqb querySent 0
    then (Raised (errmsg_failed_to_send (node_host E h) (node_port E h)),
          log (EvReportRemoteError (connection h) None) s1)
    else (Normal tt, s1).
Proof.
  unfold submit_to_worker. run_monad. simpl.
  now destruct (Z.eqb _ 0).
Qed.

Lemma drain_worker_step h s :
  drain_worker E h s
  = let result := env_PQgetResult E (trace s) (connection h) in
    let s1 := log (EvPQgetResult (connection h)) s in
    if not_COMMAND_OK (PQresultStatus result)
    then (Raised (errmsg_failed_to_apply (node_host E h) (node_port E h)),
          log (EvReportRemoteError (connection h) result) s1)
    else (Normal tt, log (EvPQgetResult (connection h)) s1).
Proof.
  unfold drain_worker. run_monad. simpl.
  now destruct (not_COMMAND_OK _).
Qed.

Lemma foreach_cons {A} (x : A) l body s :
  foreach (x :: l) body s
  = match body x s with
    | (Normal _, s') => foreach l body s'
    | (Raised e, s') => (Raised e, s')
    end.
Proof. reflexivity. Qed.

(** The ordered loop: all handles answer [PGRES_COMMAND_OK], or the loop
    stops at the first one that does not. *)
Lemma execute_loop_spec command l : forall s,
  (exists s2,
      foreach l (execute_on_worker E command) s = (Normal tt, s2) /\
      same_statics s s2 /\
      Forall COMMAND_OK (exec_answers E (trace s) command l) /\
      trace s2 = trace s ++ map (exec_on command) l)
  \/
  (exists pre h post s2,
      l = pre ++ h :: post /\
      Forall COMMAND_OK (exec_answers E (trace s) command pre) /\
      ~ COMMAND_OK (env_PQexec E (trace s ++ map (exec_on command) pre)
                               (connection h) command) /\
      foreach l (execute_on_worker E command) s
      = (Raised (errmsg_failed_to_send (node_host E h) (node_port E h)), s2) /\
      same_statics s s2 /\
      trace s2 = trace s ++ map (exec_on command) pre
                   ++ [exec_on command h;
                       EvReportRemoteError (connection h)
                         (env_PQexec E (trace s ++ map (exec_on command) pre)
                                     (connection h) command)]).
Proof.
  induction l as [|h l IH]; intros s.
  - left. exists s. simpl. unfold ret. repeat split; auto.
    now rewrite app_nil_r.
  - rewrite foreach_cons, execute_on_worker_step. simpl.
    destruct (not_COMMAND_OK (PQresultStatus
                (env_PQexec E (trace s) (connection h) command))) eqn:Hst.
    + right. exists [], h, l. eexists. simpl.
      rewrite app_nil_r.
      split; [reflexivity|]. split; [constructor|]. split; [|split; [reflexivity|]].
      * now apply not_COMMAND_OK_true.
      * split; [repeat split|trace_eq].
    + apply not_COMMAND_OK_false in Hst.
      destruct (IH (log (exec_on command h) s))
        as [(s2 & Hrun & Hsame & Hok & Ht)
           |(pre & h' & post & s2 & -> & Hok & Hbad & Hrun & Hsame & Ht)].
      * left. exists s2.
        split; [exact Hrun|]. split; [exact Hsame|].
        split; [simpl; constructor; [exact Hst|exact Hok]|].
        rewrite Ht. trace_eq.
      * right. exists (h :: pre), h', post, s2.
        flatten_in Hbad. flatten_in Ht.
        split; [reflexivity|].
        split; [simpl; constructor; [exact Hst|exact Hok]|].
        split; [exact Hbad|]. split; [exact Hrun|]. split; [exact Hsame|].
        rewrite Ht. trace_eq.
Qed.

(** The submit loop of the parallel dispatcher. *)
Lemma submit_loop_spec command l : forall s,
  (exists s2,
      foreach l (submit_to_worker E command) s = (Normal tt, s2) /\
      same_statics s s2 /\
      Forall (fun querySent => querySent <> 0%Z)
             (send_answers E (trace s) command l) /\
      trace s2 = trace s ++ map (send_on command) l)
  \/
  (exists pre h post s2,
      l = pre ++ h :: post /\
      Forall (fun querySent => querySent <> 0%Z)
             (send_answers E (trace s) command pre) /\
      env_PQsendQuery E (trace s ++ map (send_on command) pre)
                      (connection h) command = 0%Z /\
      foreach l (submit_to_worker E command) s
      = (Raised (errmsg_failed_to_send (node_host E h) (node_port E h)), s2) /\
      same_statics s s2 /\
      trace s2 = trace s ++ map (send_on command) pre
                   ++ [send_on command h;
                       EvReportRemoteError (connection h) None]).
Proof.
  induction l as [|h l IH]; intros s.
  - left. exists s. simpl. unfold ret. repeat split; auto.
    now rewrite app_nil_r.
  - rewrite foreach_cons, submit_to_worker_step. simpl.
    destruct (Z.eqb (env_PQsendQuery E (trace s) (connection h) command) 0)
      eqn:Hsent.
    + right. exists [], h, l. eexists. simpl.
      rewrite app_nil_r.
      split; [reflexivity|]. split; [constructor|]. split; [|split; [reflexivity|]].
      * now apply Z.eqb_eq.
      * split; [repeat split|trace_eq].
    + apply Z.eqb_neq in Hsent.
      destruct (IH (log (send_on command h) s))
        as [(s2 & Hrun & Hsame & Hok & Ht)
           |(pre & h' & post & s2 & -> & Hok & Hbad & Hrun & Hsame & Ht)].
      * left. exists s2.
        split; [exact Hrun|]. split; [exact Hsame|].
        split; [simpl; constructor; [exact Hsent|exact Hok]|].
        rewrite Ht. trace_eq.
      * right. exists (h :: pre), h', post, s2.
        flatten_in Hbad. flatten_in Ht.
        split; [reflexivity|].
        split; [simpl; constructor; [exact Hsent|exact Hok]|].
        split; [exact Hbad|]. split; [exact Hrun|]. split; [exact Hsame|].
        rewrite Ht. trace_eq.
Qed.

(** The drain loop of the parallel dispatcher. *)
Lemma drain_loop_spec l : forall s,
  (exists s2,
      foreach l (drain_worker E) s = (Normal tt, s2) /\
      same_statics s s2 /\
      Forall COMMAND_OK (drain_answers E (trace s) l) /\
      trace s2 = trace s ++ flat_map drain_of l)
  \/
  (exists pre h post s2,
      l = pre ++ h :: post /\
      Forall COMMAND_OK (drain_answers E (trace s) pre) /\
      ~ COMMAND_OK (env_PQgetResult E (trace s ++ flat_map drain_of pre)
                                    (connection h)) /\
      foreach l (drain_worker E) s
      = (Raised (errmsg_failed_to_apply (node_host E h) (node_port E h)), s2) /\
      same_statics s s2 /\
      trace s2 = trace s ++ flat_map drain_of pre
                   ++ [EvPQgetResult (connection h);
                       EvReportRemoteError (connection h)
                         (env_PQgetResult E (trace s ++ flat_map drain_of pre)
                                          (connection h))]).
Proof.
  induction l as [|h l IH]; intros s.
  - left. exists s. simpl. unfold ret. repeat split; auto.
    now rewrite app_nil_r.
  - rewrite foreach_cons, drain_worker_step. simpl.
    destruct (not_COMMAND_OK (PQresultStatus
                (env_PQgetResult E (trace s) (connection h)))) eqn:Hst.
    + right. exists [], h, l. eexists. simpl.
      rewrite app_nil_r.
      split; [reflexivity|]. split; [constructor|]. split; [|split; [reflexivity|]].
      * now apply not_COMMAND_OK_true.
      * split; [repeat split|trace_eq].
    + apply not_COMMAND_OK_false in Hst.
      destruct (IH (log (EvPQgetResult (connection h))
                        (log (EvPQgetResult (connection h)) s)))
        as [(s2 & Hrun & Hsame & Hok & Ht)
           |(pre & h' & post & s2 & -> & Hok & Hbad & Hrun & Hsame & Ht)].
      * left. exists s2. flatten_in Hok. flatten_in Ht.
        split; [exact Hrun|]. split; [exact Hsame|].
        split; [simpl; constructor; [exact Hst|exact Hok]|].
        rewrite Ht. trace_eq.
      * right. exists (h :: pre), h', post, s2.
        flatten_in Hok. flatten_in Hbad. flatten_in Ht.
        split; [reflexivity|].
        split; [simpl; constructor; [exact Hst|exact Hok]|].
        split; [exact Hbad|]. split; [exact Hrun|]. split; [exact Hsame|].
        rewrite Ht. trace_eq.
Qed.

End Dispatch.

(** ** The dispatchers *)

Lemma SendCommandToWorkersInOrder_after_open E command s connectionList s1 :
  OpenWorkerTransactions E s = (Normal connectionList, s1) ->
  SendCommandToWorkersInOrder E command s
  = foreach connectionList (execute_on_worker E command) s1.
Proof.
  intros Hopen. unfold SendCommandToWorkersInOrder, bind. now rewrite Hopen.
Qed.

Lemma SendCommandToWorkersInParallel_after_open E command s connectionList s1 :
  OpenWorkerTransactions E s = (Normal connectionList, s1) ->
  SendCommandToWorkersInParallel E command s
  = match foreach connectionList (submit_to_worker E command) s1 with
    | (Normal _, s2) => foreach connectionList (drain_worker E) s2
    | (Raised e, s2) => (Raised e, s2)
    end.
Proof.
  intros Hopen. unfold SendCommandToWorkersInParallel, bind. now rewrite Hopen.
Qed.

Lemma executed_exec_on command l :
  executed (map (exec_on command) l) = map (fun h => (connection h, command)) l.
Proof.
  induction l as [|h l IH]; simpl; [reflexivity|]. now rewrite <- IH.
Qed.




(** C1. [SendCommandToWorkersInOrder] executes the command on the handles in
    registry order.  Either every handle answers [PGRES_COMMAND_OK] and
    every handle has received the command, or the call stops at the first
    handle [h] whose result is something else: it raises "failed to send
    metadata change to host:port" with the host and port of [h]'s
    connection, and the handles after [h] in the registry never receive the
    command. *)
Theorem SendCommandToWorkersInOrder_fail_fast E command s connectionList s1 :
  OpenWorkerTransactions E s = (Normal connectionList, s1) ->
  (exists s2,
      SendCommandToWorkersInOrder E command s = (Normal tt, s2) /\
      Forall COMMAND_OK (exec_answers E (trace s1) command connectionList) /\
      trace s2 = trace s1 ++ map (exec_on command) connectionList)
  \/
  (exists pre h post s2 evs,
      connectionList = pre ++ h :: post /\
      Forall COMMAND_OK (exec_answers E (trace s1) command pre) /\
      ~ COMMAND_OK (env_PQexec E (trace s1 ++ map (exec_on command) pre)
                               (connection h) command) /\
      SendCommandToWorkersInOrder E command s
      = (Raised (errmsg_failed_to_send (node_host E h) (node_port E h)), s2) /\
      trace s2 = trace s1 ++ evs /\
      evs = map (exec_on command) pre
              ++ [exec_on command h;
                  EvReportRemoteError (connection h)
                    (env_PQexec E (trace s1 ++ map (exec_on command) pre)
                                (connection h) command)] /\
      executed evs = map (fun x => (connection x, command)) (pre ++ [h])).
Proof.
  intros Hopen.
  rewrite (SendCommandToWorkersInOrder_after_open _ _ _ Hopen).
  destruct (execute_loop_spec E command connectionList s1)
    as [(s2 & Hrun & _ & Hok & Ht)
       |(pre & h & post & s2 & Hl & Hok & Hbad & Hrun & _ & Ht)].
  - left. exists s2. auto.
  - right. exists pre, h, post, s2. eexists.
    split; [exact Hl|]. split; [exact Hok|]. split; [exact Hbad|].
    split; [exact Hrun|]. split; [exact Ht|]. split; [reflexivity|].
    rewrite executed_app, executed_exec_on, map_app. reflexivity.
Qed.

(** On three workers of which the second refuses the command. *)
Lemma SendCommandToWorkersInOrder_fail_fast_witness :
  OpenWorkerTransactions Cluster.command_refused Cluster.start
  = (Normal Cluster.three_handles, Cluster.in_transaction3)
  /\
  ((exists s2,
       SendCommandToWorkersInOrder Cluster.command_refused "CREATE TABLE t"
                                   Cluster.start = (Normal tt, s2) /\
       Forall COMMAND_OK
              (exec_answers Cluster.command_refused
                 (trace Cluster.in_transaction3)
                 "CREATE TABLE t" Cluster.three_handles) /\
       trace s2
       = trace Cluster.in_transaction3
           ++ map (exec_on "CREATE TABLE t") Cluster.three_handles)
   \/
   (exists pre h post s2 evs,
       Cluster.three_handles = pre ++ h :: post /\
       Forall COMMAND_OK
              (exec_answers Cluster.command_refused
                 (trace Cluster.in_transaction3) "CREATE TABLE t" pre) /\
       ~ COMMAND_OK
           (env_PQexec Cluster.command_refused
              (trace Cluster.in_transaction3
                 ++ map (exec_on "CREATE TABLE t") pre)
              (connection h) "CREATE TABLE t") /\
       SendCommandToWorkersInOrder Cluster.command_refused "CREATE TABLE t"
                                   Cluster.start
       = (Raised (errmsg_failed_to_send (node_host Cluster.command_refused h)
                                        (node_port Cluster.command_refused h)),
          s2) /\
       trace s2 = trace Cluster.in_transaction3 ++ evs /\
       evs = map (exec_on "CREATE TABLE t") pre
               ++ [exec_on "CREATE TABLE t" h;
                   EvReportRemoteError (connection h)
                     (env_PQexec Cluster.command_refused
                        (trace Cluster.in_transaction3
                           ++ map (exec_on "CREATE TABLE t") pre)
                        (connection h) "CREATE TABLE t")] /\
       executed evs
       = map (fun x => (connection x, "CREATE TABLE t"%string)) (pre ++ [h]))).
Proof.
  split; [reflexivity|].
  apply (@SendCommandToWorkersInOrder_fail_fast
           Cluster.command_refused "CREATE TABLE t" Cluster.start
           Cluster.three_handles Cluster.in_transaction3).
  reflexivity.
Defined.



(** ** The registry *)

Section Acquisition.

Variable E : Env.

(** What is cached after an acquisition: the complete list it returned, or
    nothing if it failed. *)
Lemma OpenWorkerTransactions_outcome s r s' :
  OpenWorkerTransactions E s = (r, s') ->
  match r with
  | Normal l =>
      workerConnectionList s' = l /\
      List.length l = List.length (env_WorkerNodeList E (trace s)) /\
      (l = [] -> isXactCallbackRegistered s' = true)
  | Raised _ =>
      workerConnectionList s' = [] /\
      isXactCallbackRegistered s' = isXactCallbackRegistered s
  end.
Proof.
  intros Hrun.
  destruct (OpenWorkerTransactions_cases E s) as [[Hne Hlen]|[Hlen|[Hnil Hws]]].
  - rewrite OpenWorkerTransactions_cached in Hrun by assumption.
    injection Hrun as <- <-. simpl. repeat split; auto; try contradiction.
  - rewrite OpenWorkerTransactions_mismatch in Hrun by assumption.
    apply populate_spec in Hrun. destruct Hrun as [_ Hr].
    destruct r as [l|e].
    + destruct Hr as (Hl & Hlen' & Hf & _). auto.
    + destruct Hr as (Hl & Hf & _). auto.
  - rewrite OpenWorkerTransactions_empty in Hrun by assumption.
    apply populate_spec in Hrun. destruct Hrun as [_ Hr].
    destruct r as [l|e].
    + destruct Hr as (Hl & Hlen' & Hf & _). rewrite Hws. auto.
    + destruct Hr as (_ & _ & pre & w & post & hs & Hsplit & _).
      now destruct pre.
Qed.

(** With an unchanged worker count the cached list is handed out again and
    only the catalogue is read. *)
Lemma OpenWorkerTransactions_reuse s :
  (workerConnectionList s = [] -> isXactCallbackRegistered s = true) ->
  List.length (env_WorkerNodeList E (trace s))
    = List.length (workerConnectionList s) ->
  OpenWorkerTransactions E s
  = (Normal (workerConnectionList s), log EvWorkerNodeList s).
Proof.
  intros Hreg Hlen.
  destruct (workerConnectionList s) as [|h l] eqn:Hl.
  - rewrite OpenWorkerTransactions_empty;
      [|assumption|now apply length_zero_iff_nil].
    unfold populate. run_monad. simpl. rewrite (Hreg eq_refl). simpl.
    unfold log. now rewrite Hl.
  - rewrite OpenWorkerTransactions_cached; rewrite ?Hl; auto; discriminate.
Qed.

Lemma acquire_after_stable gaps : forall s,
  (workerConnectionList s = [] -> isXactCallbackRegistered s = true) ->
  (forall t, List.length (env_WorkerNodeList E (trace s ++ t))
             = List.length (workerConnectionList s)) ->
  exists s',
    acquire_after E gaps s
    = (map (fun _ => Normal (workerConnectionList s)) gaps, s') /\
    workerConnectionList s' = workerConnectionList s /\
    trace s' = trace s ++ flat_map (fun gap => gap ++ [EvWorkerNodeList]) gaps.
Proof.
  induction gaps as [|gap gaps IH]; intros s Hreg Hcount.
  - exists s. simpl. now rewrite app_nil_r.
  - simpl acquire_after.
    rewrite OpenWorkerTransactions_reuse; simpl; auto.
    destruct (IH (log EvWorkerNodeList
                    {| workerConnectionList := workerConnectionList s;
                       isXactCallbackRegistered := isXactCallbackRegistered s;
                       MultiShardCommitProtocol := MultiShardCommitProtocol s;
                       trace := trace s ++ gap |}))
      as (s' & Hrun & Hl & Ht); simpl; auto.
    + intros t. rewrite <- !app_assoc. apply Hcount.
    + simpl in Hrun, Hl, Ht. rewrite Hrun. exists s'.
      split; [reflexivity|]. split; [exact Hl|].
      rewrite Ht. now rewrite <- !app_assoc.
Qed.

End Acquisition.

(** C4. After a successful population, and as long as the worker count does
    not change, every further acquisition of the transaction returns the
    very list the population returned.  The only call each of them makes is
    the catalogue read: no connection is requested and no BEGIN is sent.
    ([gaps] are the calls other code makes between the acquisitions.) *)
Theorem repeated_acquisition_is_stable E s l s1 gaps :
  OpenWorkerTransactions E s = (Normal l, s1) ->
  (forall t, List.length (env_WorkerNodeList E (trace s1 ++ t)) = List.length l) ->
  exists s2,
    acquire_after E gaps s1 = (map (fun _ => Normal l) gaps, s2) /\
    workerConnectionList s2 = l /\
    trace s2 = trace s1 ++ flat_map (fun gap => gap ++ [EvWorkerNodeList]) gaps.
Proof.
  intros Hopen Hcount.
  apply OpenWorkerTransactions_outcome in Hopen. destruct Hopen as (Hl & _ & Hreg).
  subst l. apply acquire_after_stable; auto.
Qed.

(** Three further acquisitions on a healthy two-worker cluster. *)
Lemma repeated_acquisition_is_stable_witness :
  OpenWorkerTransactions Cluster.healthy Cluster.start
  = (Normal Cluster.two_handles, Cluster.in_transaction COMMIT_PROTOCOL_1PC)
  /\
  (forall t,
      List.length (env_WorkerNodeList Cluster.healthy
                     (trace (Cluster.in_transaction COMMIT_PROTOCOL_1PC) ++ t))
      = List.length Cluster.two_handles)
  /\
  exists s2,
    acquire_after Cluster.healthy
                  Cluster.dispatches
                  (Cluster.in_transaction COMMIT_PROTOCOL_1PC)
    = (map (fun _ => Normal Cluster.two_handles) Cluster.dispatches, s2) /\
    workerConnectionList s2 = Cluster.two_handles /\
    trace s2
    = trace (Cluster.in_transaction COMMIT_PROTOCOL_1PC)
        ++ flat_map (fun gap => gap ++ [EvWorkerNodeList]) Cluster.dispatches.
Proof.
  split; [reflexivity|]. split; [intros t; reflexivity|].
  apply (@repeated_acquisition_is_stable
           Cluster.healthy Cluster.start Cluster.two_handles
           (Cluster.in_transaction COMMIT_PROTOCOL_1PC)).
  - reflexivity.
  - intros t. reflexivity.
Defined.

Lemma requested_registration registered :
  requested (if registered : bool then [] else [EvRegisterXactCallback]) = [].
Proof. now destruct registered. Qed.

Lemma executed_registration registered :
  executed (if registered : bool then [] else [EvRegisterXactCallback]) = [].
Proof. now destruct registered. Qed.

(** A successful population has asked for a connection to every worker, in
    list order, and has sent BEGIN on every handle it stored. *)
Lemma populate_success E workerList s l s' :
  populate E workerList s = (Normal l, s') ->
  exists evs,
    trace s' = trace s ++ evs /\
    workerConnectionList s' = l /\
    List.length l = List.length workerList /\
    requested evs = map node_of workerList /\
    executed evs = map (fun h => (connection h, "BEGIN"%string)) l.
Proof.
  intros Hrun. apply populate_spec in Hrun.
  destruct Hrun as (_ & Hl & Hlen & _ & Ht).
  eexists. split; [exact Ht|]. split; [exact Hl|]. split; [exact Hlen|].
  rewrite requested_app, executed_app.
  rewrite requested_registration, executed_registration, !app_nil_r.
  split; [now apply open_events_requested|now apply open_events_executed].
Qed.

(** C7. When the worker count differs from the number of cached handles,
    the acquisition hands every cached handle to [CloseConnections], drops
    the cache, and opens the workers of the current list afresh: a
    connection is requested for each worker in list order and BEGIN is sent
    on each handle of the new registry, which has one handle per worker.
    If a worker refuses on the way, the requests stop at that worker and
    the registry stays empty; in neither case does a cached handle
    survive. *)
Theorem cardinality_change_reopens E s r s' :
  List.length (env_WorkerNodeList E (trace s))
    <> List.length (workerConnectionList s) ->
  OpenWorkerTransactions E s = (r, s') ->
  exists evs,
    trace s' = trace s ++ [EvWorkerNodeList;
                           EvCloseConnections (workerConnectionList s)]
                 ++ evs /\
    match r with
    | Normal l =>
        workerConnectionList s' = l /\
        List.length l = List.length (env_WorkerNodeList E (trace s)) /\
        requested evs = map node_of (env_WorkerNodeList E (trace s)) /\
        executed evs = map (fun h => (connection h, "BEGIN"%string)) l
    | Raised _ =>
        workerConnectionList s' = [] /\
        exists pre w post,
          env_WorkerNodeList E (trace s) = pre ++ w :: post /\
          requested evs = map node_of (pre ++ [w])
    end.
Proof.
  intros Hlen Hrun.
  rewrite OpenWorkerTransactions_mismatch in Hrun by assumption.
  destruct r as [l|e].
  - apply populate_success in Hrun.
    destruct Hrun as (evs & Ht & Hl & Hlen' & Hreq & Hexec). simpl in Ht.
    exists evs. split; [rewrite Ht, <- app_assoc; reflexivity|]. auto.
  - apply populate_spec in Hrun.
    destruct Hrun as (_ & Hl & _ & pre & w & post & hs & Hsplit & Hlen' & Hcase).
    simpl in Hl.
    destruct Hcase as [[_ Ht]|(c & result & _ & Ht)]; simpl in Ht;
      (eexists; split; [rewrite Ht, <- app_assoc; reflexivity|];
       split; [exact Hl|]; exists pre, w, post; split; [exact Hsplit|];
       rewrite requested_app, open_events_requested, map_app by assumption;
       reflexivity).
Qed.

(** Two handles cached, three workers in the catalogue. *)
Lemma cardinality_change_reopens_witness :
  List.length (env_WorkerNodeList Cluster.healthy3
                 (trace (Cluster.in_transaction COMMIT_PROTOCOL_1PC)))
    <> List.length (workerConnectionList
                      (Cluster.in_transaction COMMIT_PROTOCOL_1PC))
  /\
  OpenWorkerTransactions Cluster.healthy3
                         (Cluster.in_transaction COMMIT_PROTOCOL_1PC)
  = (Normal Cluster.three_handles,
     snd (OpenWorkerTransactions Cluster.healthy3
                                 (Cluster.in_transaction COMMIT_PROTOCOL_1PC)))
  /\
  exists evs,
    trace (snd (OpenWorkerTransactions Cluster.healthy3
                  (Cluster.in_transaction COMMIT_PROTOCOL_1PC)))
    = trace (Cluster.in_transaction COMMIT_PROTOCOL_1PC)
        ++ [EvWorkerNodeList; EvCloseConnections Cluster.two_handles] ++ evs /\
    workerConnectionList
      (snd (OpenWorkerTransactions Cluster.healthy3
              (Cluster.in_transaction COMMIT_PROTOCOL_1PC)))
    = Cluster.three_handles /\
    List.length Cluster.three_handles
    = List.length (env_WorkerNodeList Cluster.healthy3
                     (trace (Cluster.in_transaction COMMIT_PROTOCOL_1PC))) /\
    requested evs
    = map node_of (env_WorkerNodeList Cluster.healthy3
                     (trace (Cluster.in_transaction COMMIT_PROTOCOL_1PC))) /\
    executed evs
    = map (fun h => (connection h, "BEGIN"%string)) Cluster.three_handles.
Proof.
  split; [simpl; lia|]. split; [reflexivity|].
  apply (@cardinality_change_reopens
           Cluster.healthy3 (Cluster.in_transaction COMMIT_PROTOCOL_1PC)
           (Normal Cluster.three_handles)
           (snd (OpenWorkerTransactions Cluster.healthy3
                   (Cluster.in_transaction COMMIT_PROTOCOL_1PC)))).
  - simpl; lia.
  - reflexivity.
Defined.

(** C5 at a concrete input.  Two workers, the second refuses BEGIN: the
    call fails naming worker-2, BEGIN has been sent on the connection of
    worker-1, yet no handle for that connection is in the registry, and the
    abort callback that follows does nothing. *)
Lemma partial_population_example :
  exists s',
    OpenWorkerTransactions Cluster.begin_refused Cluster.start
    = (Raised (errmsg_could_not_start_transaction "worker-2" 5432%Z), s') /\
    In (EvPQexec 101%Z "BEGIN") (trace s') /\
    ~ (exists h, In h (workerConnectionList s') /\ connection h = 101%Z) /\
    CompleteWorkerTransactions Cluster.begin_refused XACT_EVENT_ABORT s'
    = (Normal tt, s').
Proof.
  exists (snd (OpenWorkerTransactions Cluster.begin_refused Cluster.start)).
  split; [reflexivity|].
  split; [vm_compute; auto 6|]. split; [|reflexivity].
  intros (h & Hin & _). exact Hin.
Qed.

(** C5.  What the code does where the handles opened so far should stay
    registered.  Let the acquisition have to populate, let the workers
    before [w] in the catalogue yield a connection and accept BEGIN, and
    let [w] yield no connection or refuse BEGIN.  Then the call raises
    "could not open connection to" or "could not start transaction on"
    followed by the name and port of [w].  BEGIN has been sent on the
    handle of every earlier worker, yet the registry is left empty and the
    flag untouched, so that the callback, whatever the event and whether
    called directly or through PostgreSQL, calls no helper: the
    transactions begun on the earlier workers are not rolled back by the
    abort that follows. *)
Theorem refused_worker_leaves_opened_handles_unregistered E s pre w post :
  env_WorkerNodeList E (trace s) = pre ++ w :: post ->
  List.length (pre ++ w :: post) <> List.length (workerConnectionList s) ->
  all_willing E (trace (reopened s)) pre = true ->
  willing E (trace (reopened s)
               ++ open_events pre (open_handles E (trace (reopened s)) pre)) w
  = false ->
  exists s',
    OpenWorkerTransactions E s
    = (Raised (refusal_error E
                 (trace (reopened s)
                    ++ open_events pre
                         (open_handles E (trace (reopened s)) pre))
                 w),
       s') /\
    trace s'
    = (trace (reopened s)
         ++ open_events pre (open_handles E (trace (reopened s)) pre))
        ++ refusal_events E
             (trace (reopened s)
                ++ open_events pre (open_handles E (trace (reopened s)) pre))
             w /\
    executed (open_events pre (open_handles E (trace (reopened s)) pre))
    = map (fun h => (connection h, "BEGIN"%string))
          (open_handles E (trace (reopened s)) pre) /\
    workerConnectionList s' = [] /\
    isXactCallbackRegistered s' = isXactCallbackRegistered s /\
    forall ev,
      CompleteWorkerTransactions E ev s' = (Normal tt, s') /\
      CallXactCallbacks E ev s' = (Normal tt, s').
Proof.
  intros Hws Hlen Hall Hw.
  eexists.
  split; [exact (@OpenWorkerTransactions_refused E s pre w post Hws Hlen Hall Hw)|].
  split; [reflexivity|].
  split; [apply open_events_executed, open_handles_length|].
  split; [reflexivity|]. split; [reflexivity|].
  intros ev. split; [reflexivity|].
  unfold CallXactCallbacks. run_monad. simpl.
  destruct (isXactCallbackRegistered s); reflexivity.
Qed.

(** On the cluster whose second worker refuses BEGIN. *)
Lemma refused_worker_leaves_opened_handles_unregistered_witness :
  env_WorkerNodeList Cluster.begin_refused (trace Cluster.start)
  = [Cluster.worker1] ++ Cluster.worker2 :: []
  /\
  List.length ([Cluster.worker1] ++ Cluster.worker2 :: [])
    <> List.length (workerConnectionList Cluster.start)
  /\
  all_willing Cluster.begin_refused (trace (reopened Cluster.start))
              [Cluster.worker1] = true
  /\
  willing Cluster.begin_refused
          (trace (reopened Cluster.start)
             ++ open_events [Cluster.worker1]
                  (open_handles Cluster.begin_refused
                     (trace (reopened Cluster.start)) [Cluster.worker1]))
          Cluster.worker2
  = false
  /\
  exists s',
    OpenWorkerTransactions Cluster.begin_refused Cluster.start
    = (Raised (errmsg_could_not_start_transaction "worker-2" 5432%Z), s') /\
    executed (open_events [Cluster.worker1]
                (open_handles Cluster.begin_refused
                   (trace (reopened Cluster.start)) [Cluster.worker1]))
    = [(101%Z, "BEGIN"%string)] /\
    workerConnectionList s' = [] /\
    isXactCallbackRegistered s' = false /\
    CompleteWorkerTransactions Cluster.begin_refused XACT_EVENT_ABORT s'
    = (Normal tt, s') /\
    CallXactCallbacks Cluster.begin_refused XACT_EVENT_ABORT s'
    = (Normal tt, s').
Proof.
  split; [reflexivity|]. split; [discriminate|].
  split; [reflexivity|]. split; [reflexivity|].
  destruct (@refused_worker_leaves_opened_handles_unregistered
              Cluster.begin_refused Cluster.start
              [Cluster.worker1] Cluster.worker2 []
              eq_refl ltac:(discriminate) eq_refl eq_refl)
    as (s' & Hopen & _ & Hexec & Hnil & Hflag & Hev).
  exists s'. split; [exact Hopen|]. split; [exact Hexec|].
  split; [exact Hnil|]. split; [exact Hflag|]. exact (Hev XACT_EVENT_ABORT).
Defined.




(** ** The transaction callback *)

Section Callback.

Variable E : Env.

Lemma CompleteWorkerTransactions_empty ev s :
  workerConnectionList s = [] ->
  CompleteWorkerTransactions E ev s = (Normal tt, s).
Proof.
  intros Hnil. unfold CompleteWorkerTransactions. run_monad. now rewrite Hnil.
Qed.

Lemma CompleteWorkerTransactions_PRE_COMMIT s :
  workerConnectionList s <> [] ->
  CompleteWorkerTransactions E XACT_EVENT_PRE_COMMIT s
  = if is_COMMIT_PROTOCOL_2PC (MultiShardCommitProtocol s)
    then PrepareRemoteTransactions E (workerConnectionList s) s
    else (Normal tt, s).
Proof.
  intros Hne. unfold CompleteWorkerTransactions. run_monad.
  destruct (workerConnectionList s); [contradiction|].
  now destruct (is_COMMIT_PROTOCOL_2PC _).
Qed.

Lemma CompleteWorkerTransactions_COMMIT s :
  workerConnectionList s <> [] ->
  CompleteWorkerTransactions E XACT_EVENT_COMMIT s
  = (Normal tt,
     {| workerConnectionList := [];
        isXactCallbackRegistered := isXactCallbackRegistered s;
        MultiShardCommitProtocol := MultiShardCommitProtocol s;
        trace := trace s ++ [EvCommitRemoteTransactions
                               (workerConnectionList s) false] |}).
Proof.
  intros Hne. unfold CompleteWorkerTransactions, CommitRemoteTransactions.
  run_monad. destruct (workerConnectionList s); [contradiction|reflexivity].
Qed.

Lemma CompleteWorkerTransactions_ABORT s :
  workerConnectionList s <> [] ->
  CompleteWorkerTransactions E XACT_EVENT_ABORT s
  = (Normal tt,
     {| workerConnectionList := [];
        isXactCallbackRegistered := isXactCallbackRegistered s;
        MultiShardCommitProtocol := MultiShardCommitProtocol s;
        trace := trace s ++ [EvAbortRemoteTransactions
                               (workerConnectionList s)] |}).
Proof.
  intros Hne. unfold CompleteWorkerTransactions, AbortRemoteTransactions.
  run_monad. destruct (workerConnectionList s); [contradiction|reflexivity].
Qed.

Lemma CompleteWorkerTransactions_other ev s :
  ev <> XACT_EVENT_PRE_COMMIT -> ev <> XACT_EVENT_COMMIT ->
  ev <> XACT_EVENT_ABORT ->
  CompleteWorkerTransactions E ev s = (Normal tt, s).
Proof.
  intros H1 H2 H3. unfold CompleteWorkerTransactions. run_monad.
  destruct (workerConnectionList s); [reflexivity|].
  destruct ev; try reflexivity; contradiction.
Qed.

(** Whatever the event: the callback registers nothing, keeps the flag and
    the configuration, and the only calls it can make are the three
    helpers, each at most once. *)
Lemma CompleteWorkerTransactions_frame ev s r s' :
  CompleteWorkerTransactions E ev s = (r, s') ->
  isXactCallbackRegistered s' = isXactCallbackRegistered s /\
  MultiShardCommitProtocol s' = MultiShardCommitProtocol s /\
  exists evs,
    trace s' = trace s ++ evs /\
    registrations evs = 0 /\
    (evs = [] \/
     evs = [EvPrepareRemoteTransactions (workerConnectionList s)] /\
       ev = XACT_EVENT_PRE_COMMIT /\
       MultiShardCommitProtocol s = COMMIT_PROTOCOL_2PC \/
     evs = [EvCommitRemoteTransactions (workerConnectionList s) false] \/
     evs = [EvAbortRemoteTransactions (workerConnectionList s)]).
Proof.
  intros Hrun.
  destruct (workerConnectionList s) as [|h l] eqn:Hl.
  - rewrite CompleteWorkerTransactions_empty in Hrun by assumption.
    injection Hrun as <- <-. repeat split. exists [].
    rewrite app_nil_r. auto.
  - assert (Hne : workerConnectionList s <> []) by (rewrite Hl; discriminate).
    destruct ev;
      try (rewrite CompleteWorkerTransactions_other in Hrun by discriminate;
           injection Hrun as <- <-; repeat split; exists [];
           rewrite app_nil_r; auto).
    + rewrite CompleteWorkerTransactions_COMMIT in Hrun by assumption.
      injection Hrun as <- <-. simpl. repeat split.
      eexists. split; [reflexivity|]. rewrite Hl. auto.
    + rewrite CompleteWorkerTransactions_ABORT in Hrun by assumption.
      injection Hrun as <- <-. simpl. repeat split.
      eexists. split; [reflexivity|]. rewrite Hl. auto.
    + rewrite CompleteWorkerTransactions_PRE_COMMIT in Hrun by assumption.
      destruct (MultiShardCommitProtocol s) eqn:Hp; simpl in Hrun.
      * injection Hrun as <- <-. repeat split; auto. exists [].
        rewrite app_nil_r. auto.
      * unfold PrepareRemoteTransactions in Hrun.
        destruct (snd (env_PrepareRemoteTransactions E (trace s)
                         (workerConnectionList s)));
          injection Hrun as <- <-; simpl; repeat split; auto;
          (eexists; split; [reflexivity|]; rewrite Hl;
           split; [reflexivity|]; right; left; repeat split).
Qed.

End Callback.

(** C2. On [XACT_EVENT_PRE_COMMIT] with a non-empty registry, the callback
    calls [PrepareRemoteTransactions] on the whole registry exactly when
    the configured protocol is two-phase; an error raised by the helper is
    passed on.  With one-phase commit configured it makes no call and
    changes nothing, and no other event makes it call the prepare helper
    either. *)
Theorem PRE_COMMIT_prepares_iff_2PC E s :
  workerConnectionList s <> [] ->
  (exists r s' evs,
      CompleteWorkerTransactions E XACT_EVENT_PRE_COMMIT s = (r, s') /\
      trace s' = trace s ++ evs /\
      (prepared evs = [workerConnectionList s]
       <-> MultiShardCommitProtocol s = COMMIT_PROTOCOL_2PC) /\
      (MultiShardCommitProtocol s = COMMIT_PROTOCOL_2PC ->
       evs = [EvPrepareRemoteTransactions (workerConnectionList s)] /\
       r = match snd (env_PrepareRemoteTransactions
                        E (trace s) (workerConnectionList s)) with
           | None => Normal tt
           | Some e => Raised e
           end) /\
      (MultiShardCommitProtocol s = COMMIT_PROTOCOL_1PC ->
       evs = [] /\ r = Normal tt /\ s' = s))
  /\
  (MultiShardCommitProtocol s = COMMIT_PROTOCOL_1PC ->
   forall ev r s',
     CompleteWorkerTransactions E ev s = (r, s') ->
     exists evs, trace s' = trace s ++ evs /\ prepared evs = []).
Proof.
  intros Hne. split.
  - rewrite CompleteWorkerTransactions_PRE_COMMIT by assumption.
    destruct (MultiShardCommitProtocol s) eqn:Hp; simpl.
    + exists (Normal tt), s, []. rewrite app_nil_r.
      split; [reflexivity|]. split; [reflexivity|].
      split; [split; discriminate|]. split; [discriminate|]. auto.
    + unfold PrepareRemoteTransactions.
      destruct (snd (env_PrepareRemoteTransactions E (trace s)
                       (workerConnectionList s))) as [e|];
        do 2 eexists;
        exists [EvPrepareRemoteTransactions (workerConnectionList s)];
        (split; [reflexivity|]); (split; [reflexivity|]);
        (split; [split; reflexivity|]); (split; [auto|discriminate]).
  - intros Hp ev r s' Hrun.
    apply CompleteWorkerTransactions_frame in Hrun.
    destruct Hrun as (_ & _ & evs & Ht & _ & Hcase).
    exists evs. split; [exact Ht|].
    destruct Hcase as [->|[(_ & _ & H2)|[->| ->]]]; try reflexivity.
    congruence.
Qed.

(** Two-phase commit configured, PREPARE refused. *)
Lemma PRE_COMMIT_prepares_iff_2PC_witness :
  workerConnectionList (Cluster.in_transaction COMMIT_PROTOCOL_2PC) <> []
  /\
  exists r s' evs,
    CompleteWorkerTransactions Cluster.prepare_refused XACT_EVENT_PRE_COMMIT
                               (Cluster.in_transaction COMMIT_PROTOCOL_2PC)
    = (r, s') /\
    trace s' = trace (Cluster.in_transaction COMMIT_PROTOCOL_2PC) ++ evs /\
    (prepared evs
     = [workerConnectionList (Cluster.in_transaction COMMIT_PROTOCOL_2PC)]
     <-> MultiShardCommitProtocol (Cluster.in_transaction COMMIT_PROTOCOL_2PC)
         = COMMIT_PROTOCOL_2PC) /\
    (MultiShardCommitProtocol (Cluster.in_transaction COMMIT_PROTOCOL_2PC)
     = COMMIT_PROTOCOL_2PC ->
     evs = [EvPrepareRemoteTransactions
              (workerConnectionList (Cluster.in_transaction COMMIT_PROTOCOL_2PC))] /\
     r = match snd (env_PrepareRemoteTransactions
                      Cluster.prepare_refused
                      (trace (Cluster.in_transaction COMMIT_PROTOCOL_2PC))
                      (workerConnectionList
                         (Cluster.in_transaction COMMIT_PROTOCOL_2PC))) with
         | None => Normal tt
         | Some e => Raised e
         end) /\
    (MultiShardCommitProtocol (Cluster.in_transaction COMMIT_PROTOCOL_2PC)
     = COMMIT_PROTOCOL_1PC ->
     evs = [] /\ r = Normal tt /\ s' = Cluster.in_transaction COMMIT_PROTOCOL_2PC).
Proof.
  split; [discriminate|].
  apply (proj1 (@PRE_COMMIT_prepares_iff_2PC
                  Cluster.prepare_refused
                  (Cluster.in_transaction COMMIT_PROTOCOL_2PC)
                  ltac:(discriminate))).
Defined.

(** After the callback has emptied the registry, a successful acquisition
    requests a connection for each worker and sends BEGIN on each handle it
    returns. *)
Lemma OpenWorkerTransactions_fresh E s l s' :
  workerConnectionList s = [] ->
  OpenWorkerTransactions E s = (Normal l, s') ->
  exists evs,
    trace s' = trace s ++ evs /\
    List.length l = List.length (env_WorkerNodeList E (trace s)) /\
    requested evs = map node_of (env_WorkerNodeList E (trace s)) /\
    executed evs = map (fun h => (connection h, "BEGIN"%string)) l.
Proof.
  intros Hnil Hrun.
  destruct (OpenWorkerTransactions_cases E s) as [[Hne Hlen]|[Hlen|[_ Hws]]].
  - contradiction.
  - rewrite OpenWorkerTransactions_mismatch in Hrun by assumption.
    apply populate_success in Hrun.
    destruct Hrun as (evs & Ht & _ & Hlen' & Hreq & Hexec). simpl in Ht.
    eexists. split; [rewrite Ht, <- app_assoc; reflexivity|].
    split; [exact Hlen'|]. simpl. auto.
  - rewrite OpenWorkerTransactions_empty in Hrun by assumption.
    apply populate_spec in Hrun.
    destruct Hrun as (_ & _ & Hlen' & _ & Ht). rewrite Hws.
    destruct l; [|discriminate]. simpl in Ht.
    eexists. split; [rewrite Ht, <- app_assoc; reflexivity|].
    simpl. now destruct (isXactCallbackRegistered s).
Qed.

(** C3. Handling [XACT_EVENT_COMMIT] or [XACT_EVENT_ABORT] returns normally
    and leaves the registry empty, whatever the commit or abort helper
    reports about the workers.  The acquisition that follows opens every
    worker anew: if each worker of the catalogue yields a connection and
    accepts BEGIN, it succeeds and returns one new open handle per worker,
    over the connection just obtained for that worker, and whenever it
    succeeds it has requested a connection for each worker and sent BEGIN
    on every handle it returns.  Handling [XACT_EVENT_PRE_COMMIT] keeps the
    registry: the same handles over the same connections, whether or not
    the prepare helper raises. *)
Theorem completion_empties_registry E s ev :
  ev = XACT_EVENT_COMMIT \/ ev = XACT_EVENT_ABORT ->
  (exists s',
      CompleteWorkerTransactions E ev s = (Normal tt, s') /\
      workerConnectionList s' = [] /\
      (all_willing E (trace (reopened s')) (env_WorkerNodeList E (trace s'))
       = true ->
       exists s'',
         OpenWorkerTransactions E s'
         = (Normal (open_handles E (trace (reopened s'))
                      (env_WorkerNodeList E (trace s'))), s'') /\
         workerConnectionList s''
         = open_handles E (trace (reopened s'))
             (env_WorkerNodeList E (trace s'))) /\
      forall l s'',
        OpenWorkerTransactions E s' = (Normal l, s'') ->
        exists evs,
          trace s'' = trace s' ++ evs /\
          List.length l = List.length (env_WorkerNodeList E (trace s')) /\
          requested evs = map node_of (env_WorkerNodeList E (trace s')) /\
          executed evs = map (fun h => (connection h, "BEGIN"%string)) l)
  /\
  (forall r s',
      CompleteWorkerTransactions E XACT_EVENT_PRE_COMMIT s = (r, s') ->
      List.length (workerConnectionList s')
      = List.length (workerConnectionList s) /\
      map connection (workerConnectionList s')
      = map connection (workerConnectionList s)).
Proof.
  intros Hev. split.
  - assert (Hreset : exists s',
               CompleteWorkerTransactions E ev s = (Normal tt, s') /\
               workerConnectionList s' = []).
    { destruct (workerConnectionList s) as [|h l] eqn:Hl.
      - exists s. now rewrite CompleteWorkerTransactions_empty.
      - assert (Hne : workerConnectionList s <> [])
          by (rewrite Hl; discriminate).
        destruct Hev as [-> | ->]; eexists.
        + rewrite CompleteWorkerTransactions_COMMIT by assumption.
          split; reflexivity.
        + rewrite CompleteWorkerTransactions_ABORT by assumption.
          split; reflexivity. }
    destruct Hreset as (s' & Hrun & Hnil).
    exists s'. split; [exact Hrun|]. split; [exact Hnil|]. split.
    + intros Hall.
      destruct (OpenWorkerTransactions_willing E s' (or_introl Hnil) Hall)
        as (s'' & Hopen & Hl & _).
      exists s''. split; assumption.
    + intros l s'' Hopen. now apply OpenWorkerTransactions_fresh.
  - intros r s' Hrun.
    destruct (workerConnectionList s) as [|h l] eqn:Hl.
    + rewrite CompleteWorkerTransactions_empty in Hrun by assumption.
      injection Hrun as <- <-. now rewrite Hl.
    + rewrite CompleteWorkerTransactions_PRE_COMMIT in Hrun
        by (rewrite Hl; discriminate).
      destruct (is_COMMIT_PROTOCOL_2PC (MultiShardCommitProtocol s)).
      * unfold PrepareRemoteTransactions in Hrun.
        destruct (snd (env_PrepareRemoteTransactions E (trace s)
                         (workerConnectionList s)));
          injection Hrun as <- <-; simpl; rewrite Hl;
          split;
          [apply setTransactionStates_length
          |apply setTransactionStates_connection
          |apply setTransactionStates_length
          |apply setTransactionStates_connection].
      * injection Hrun as <- <-. now rewrite Hl.
Qed.

(** An abort with two handles registered, and the acquisition that opens
    the next transaction. *)
Lemma completion_empties_registry_witness :
  (XACT_EVENT_ABORT = XACT_EVENT_COMMIT \/ XACT_EVENT_ABORT = XACT_EVENT_ABORT)
  /\
  CompleteWorkerTransactions Cluster.healthy XACT_EVENT_ABORT
                             (Cluster.in_transaction COMMIT_PROTOCOL_2PC)
  = (Normal tt, Cluster.aborted)
  /\
  workerConnectionList Cluster.aborted = []
  /\
  all_willing Cluster.healthy (trace (reopened Cluster.aborted))
              (env_WorkerNodeList Cluster.healthy (trace Cluster.aborted))
  = true
  /\
  exists s'',
    OpenWorkerTransactions Cluster.healthy Cluster.aborted
    = (Normal Cluster.two_handles, s'') /\
    workerConnectionList s'' = Cluster.two_handles /\
    exists evs,
      trace s'' = trace Cluster.aborted ++ evs /\
      requested evs
      = map node_of (env_WorkerNodeList Cluster.healthy (trace Cluster.aborted)) /\
      executed evs
      = map (fun h => (connection h, "BEGIN"%string)) Cluster.two_handles.
Proof.
  split; [right; reflexivity|]. split; [reflexivity|].
  split; [reflexivity|]. split; [reflexivity|].
  destruct (proj1 (@completion_empties_registry
                     Cluster.healthy (Cluster.in_transaction COMMIT_PROTOCOL_2PC)
                     XACT_EVENT_ABORT (or_intror eq_refl)))
    as (s' & Hrun & _ & Hopens & Hfresh).
  assert (Hs : s' = Cluster.aborted) by (now injection Hrun as <-).
  subst s'.
  destruct (Hopens eq_refl) as (s'' & Hopen & Hl).
  exists s''. split; [exact Hopen|]. split; [exact Hl|].
  destruct (Hfresh _ _ Hopen) as (evs & Ht & _ & Hreq & Hexec).
  exists evs. split; [exact Ht|]. split; [exact Hreq|exact Hexec].
Defined.

(** ** Registration of the callback *)

Section Registration.

Variable E : Env.

Lemma quiet_ret {A} (a : A) : quiet (ret a).
Proof.
  intros s r s' [= <- <-]. split; [repeat split|].
  exists []. now rewrite app_nil_r.
Qed.

Lemma quiet_ereport {A} e : quiet (@ereport A e).
Proof.
  intros s r s' [= <- <-]. split; [repeat split|].
  exists []. now rewrite app_nil_r.
Qed.

Lemma quiet_bind {A B} (m : M A) (k : A -> M B) :
  quiet m -> (forall a, quiet (k a)) -> quiet (bind m k).
Proof.
  intros Hm Hk s r s' Hrun. unfold bind in Hrun.
  destruct (m s) as [[a|e] s1] eqn:Hms;
    destruct (Hm _ _ _ Hms) as ((A1 & A2 & A3) & evs1 & Ht1 & Hr1).
  - destruct (Hk a _ _ _ Hrun) as ((B1 & B2 & B3) & evs2 & Ht2 & Hr2).
    split; [repeat split; congruence|].
    exists (evs1 ++ evs2). rewrite Ht2, Ht1, <- app_assoc.
    split; [reflexivity|]. rewrite registrations_app. lia.
  - injection Hrun as <- <-. split; [repeat split; assumption|].
    exists evs1. auto.
Qed.

Lemma quiet_foreach {A} (body : A -> M unit) l :
  (forall x, quiet (body x)) -> quiet (foreach l body).
Proof.
  intros Hbody. induction l as [|x l IH]; simpl.
  - apply quiet_ret.
  - apply quiet_bind; auto.
Qed.

Lemma quiet_PQexec c command : quiet (PQexec E c command).
Proof.
  intros s r s' [= <- <-]. split; [repeat split|].
  eexists. split; reflexivity.
Qed.

Lemma quiet_PQsendQuery c command : quiet (PQsendQuery E c command).
Proof.
  intros s r s' [= <- <-]. split; [repeat split|].
  eexists. split; reflexivity.
Qed.

Lemma quiet_PQgetResult c : quiet (PQgetResult E c).
Proof.
  intros s r s' [= <- <-]. split; [repeat split|].
  eexists. split; reflexivity.
Qed.

Lemma quiet_ReportRemoteError c result : quiet (ReportRemoteError c result).
Proof.
  intros s r s' [= <- <-]. split; [repeat split|].
  eexists. split; reflexivity.
Qed.

Create HintDb quiet.
#[local] Hint Resolve quiet_ret quiet_ereport quiet_PQexec quiet_PQsendQuery
  quiet_PQgetResult quiet_ReportRemoteError : quiet.

Ltac quiet_steps :=
  repeat first
    [ apply quiet_bind; [|intros ?]
    | match goal with |- quiet (if ?b then _ else _) => destruct b end
    | solve [auto with quiet] ].

Lemma quiet_execute_on_worker command h : quiet (execute_on_worker E command h).
Proof. unfold execute_on_worker. quiet_steps. Qed.

Lemma quiet_submit_to_worker command h : quiet (submit_to_worker E command h).
Proof. unfold submit_to_worker. quiet_steps. Qed.

Lemma quiet_drain_worker h : quiet (drain_worker E h).
Proof. unfold drain_worker. quiet_steps. Qed.

Lemma registrations_nil : registrations [] = 0.
Proof. reflexivity. Qed.

Lemma registrations_cons ev evs :
  registrations (ev :: evs)
  = match ev with EvRegisterXactCallback => 1 | _ => 0 end
    + registrations evs.
Proof. now destruct ev. Qed.

Ltac count_registrations :=
  repeat first [ rewrite registrations_app
               | rewrite registrations_cons
               | rewrite registrations_nil
               | rewrite open_events_registrations ];
  simpl.

Lemma quiet_invariant {A} (m : M A) s r s' :
  quiet m -> m s = (r, s') -> callback_invariant s -> callback_invariant s'.
Proof.
  intros Hq Hrun [Hcount Hreg].
  destruct (Hq _ _ _ Hrun) as ((Hl & Hf & _) & evs & Ht & Hr).
  split.
  - rewrite Ht, registrations_app, Hr, Hf. lia.
  - rewrite Hl, Hf. exact Hreg.
Qed.

Lemma initial_state_invariant protocol :
  callback_invariant (initial_state protocol).
Proof. split; [reflexivity|]. intros H. now elim H. Qed.

(** Population registers the callback if and only if the flag is unset. *)
Lemma populate_invariant workerList s r s' :
  callback_invariant s ->
  workerConnectionList s = [] ->
  populate E workerList s = (r, s') ->
  callback_invariant s' /\
  (forall l, r = Normal l -> isXactCallbackRegistered s' = true) /\
  (isXactCallbackRegistered s = true ->
   registrations (trace s') = registrations (trace s) /\
   isXactCallbackRegistered s' = true).
Proof.
  intros [Hcount _] Hnil Hrun. apply populate_spec in Hrun.
  destruct Hrun as [_ Hr]. destruct r as [l|e].
  - destruct Hr as (Hl & _ & Hf & Ht).
    assert (Hn : registrations (trace s') = 1).
    { rewrite Ht. count_registrations. rewrite Hcount.
      destruct (isXactCallbackRegistered s); count_registrations; lia. }
    split; [split; [now rewrite Hn, Hf|auto]|].
    split; [auto|]. intros Hset. rewrite Hset in Hcount. split; congruence.
  - destruct Hr as (Hl & Hf & pre & w & post & hs & _ & _ & Hcase).
    assert (Hn : registrations (trace s') = registrations (trace s)).
    { destruct Hcase as [[_ Ht]|(c & result & _ & Ht)];
        rewrite Ht; count_registrations; lia. }
    split; [split|].
    + now rewrite Hn, Hf.
    + rewrite Hl, Hnil. intros H. now elim H.
    + split; [discriminate|]. intros Hset. split; congruence.
Qed.

Lemma OpenWorkerTransactions_invariant s r s' :
  callback_invariant s ->
  OpenWorkerTransactions E s = (r, s') ->
  callback_invariant s' /\
  (forall l, r = Normal l -> isXactCallbackRegistered s' = true) /\
  (isXactCallbackRegistered s = true ->
   registrations (trace s') = registrations (trace s) /\
   isXactCallbackRegistered s' = true).
Proof.
  intros Hinv Hrun.
  destruct (OpenWorkerTransactions_cases E s) as [[Hne Hlen]|[Hlen|[Hnil Hws]]].
  - rewrite OpenWorkerTransactions_cached in Hrun by assumption.
    injection Hrun as <- <-. destruct Hinv as [Hcount Hreg].
    assert (Hn : registrations (trace (log EvWorkerNodeList s))
                 = registrations (trace s))
      by (simpl; count_registrations; lia).
    split; [split; [now rewrite Hn|exact Hreg]|].
    split; [intros; now apply Hreg|]. intros Hset. split; assumption.
  - rewrite OpenWorkerTransactions_mismatch in Hrun by assumption.
    assert (Hn : registrations (trace (reopened s)) = registrations (trace s))
      by (simpl; count_registrations; lia).
    apply populate_invariant in Hrun; [|split|reflexivity].
    + now rewrite <- Hn.
    + rewrite Hn. apply Hinv.
    + intros H. now elim H.
  - rewrite OpenWorkerTransactions_empty in Hrun by assumption.
    assert (Hn : registrations (trace (log EvWorkerNodeList s))
                 = registrations (trace s))
      by (simpl; count_registrations; lia).
    apply populate_invariant in Hrun; [|split|assumption].
    + now rewrite <- Hn.
    + rewrite Hn. apply Hinv.
    + simpl. apply Hinv.
Qed.

Lemma CallXactCallbacks_invariant ev s r s' :
  callback_invariant s ->
  CallXactCallbacks E ev s = (r, s') ->
  callback_invariant s'.
Proof.
  intros [Hcount Hreg] Hrun. unfold CallXactCallbacks in Hrun. run_monad.
  destruct (isXactCallbackRegistered s) eqn:Hset.
  - apply CompleteWorkerTransactions_frame in Hrun.
    destruct Hrun as (Hf & _ & evs & Ht & Hr & _).
    split; [|intros _; congruence].
    rewrite Ht, registrations_app, Hr, Hf, Hset, Hcount. lia.
  - injection Hrun as <- <-. split; rewrite Hset; assumption.
Qed.

Lemma perform_invariant op s :
  callback_invariant s -> callback_invariant (snd (perform E op s)).
Proof.
  intros Hinv. destruct op as [command|command|ev]; simpl.
  - unfold SendCommandToWorkersInOrder, bind.
    destruct (OpenWorkerTransactions E s) as [[l|e] s1] eqn:Hopen;
      apply OpenWorkerTransactions_invariant in Hopen; auto;
      destruct Hopen as [Hinv1 _]; [|exact Hinv1].
    destruct (foreach l (execute_on_worker E command) s1) as [r s2] eqn:Hloop.
    simpl. eapply quiet_invariant; [|exact Hloop|exact Hinv1].
    apply quiet_foreach, quiet_execute_on_worker.
  - unfold SendCommandToWorkersInParallel, bind.
    destruct (OpenWorkerTransactions E s) as [[l|e] s1] eqn:Hopen;
      apply OpenWorkerTransactions_invariant in Hopen; auto;
      destruct Hopen as [Hinv1 _]; [|exact Hinv1].
    destruct (foreach l (submit_to_worker E command) s1)
      as [[[]|e] s2] eqn:Hsubmit;
      assert (Hinv2 : callback_invariant s2)
        by (eapply quiet_invariant; [|exact Hsubmit|exact Hinv1];
            apply quiet_foreach, quiet_submit_to_worker);
      [|exact Hinv2].
    destruct (foreach l (drain_worker E) s2) as [r s3] eqn:Hdrain.
    simpl. eapply quiet_invariant; [|exact Hdrain|exact Hinv2].
    apply quiet_foreach, quiet_drain_worker.
  - destruct (CallXactCallbacks E ev s) as [r s1] eqn:Hrun.
    simpl. eapply CallXactCallbacks_invariant; eauto.
Qed.

Lemma run_invariant ops : forall s,
  callback_invariant s -> callback_invariant (run E ops s).
Proof.
  induction ops as [|op ops IH]; intros s Hinv; simpl; [exact Hinv|].
  apply IH, perform_invariant, Hinv.
Qed.

End Registration.

(** C9. Whatever a backend has done since it started -- dispatching
    commands in either mode and receiving transaction events, in any order
    and with any outcome -- [RegisterXactCallback] has been called at most
    once, and exactly once if and only if the flag is set.  An acquisition
    made in such a state keeps it that way: if it succeeds the callback is
    registered afterwards, and if the flag was already set it registers
    nothing more. *)
Theorem callback_registered_at_most_once E protocol ops :
  registrations (trace (run E ops (initial_state protocol))) <= 1 /\
  (isXactCallbackRegistered (run E ops (initial_state protocol)) = true
   <-> registrations (trace (run E ops (initial_state protocol))) = 1) /\
  forall r s',
    OpenWorkerTransactions E (run E ops (initial_state protocol)) = (r, s') ->
    registrations (trace s') <= 1 /\
    (forall l, r = Normal l ->
               registrations (trace s') = 1 /\
               isXactCallbackRegistered s' = true) /\
    (isXactCallbackRegistered (run E ops (initial_state protocol)) = true ->
     registrations (trace s')
     = registrations (trace (run E ops (initial_state protocol))) /\
     isXactCallbackRegistered s' = true).
Proof.
  pose proof (run_invariant E ops (initial_state_invariant protocol)) as Hinv.
  set (s := run E ops (initial_state protocol)) in *.
  assert (Hcount := proj1 Hinv).
  split; [|split].
  - rewrite Hcount. destruct (isXactCallbackRegistered s); lia.
  - rewrite Hcount. destruct (isXactCallbackRegistered s);
      split; congruence.
  - intros r s' Hopen.
    destruct (@OpenWorkerTransactions_invariant E s r s' Hinv Hopen)
      as ([Hcount' _] & Hok & Hkeep).
    split; [|split].
    + rewrite Hcount'. destruct (isXactCallbackRegistered s'); lia.
    + intros l Hr. specialize (Hok l Hr). rewrite Hcount', Hok. auto.
    + exact Hkeep.
Qed.

(** After a committed and an aborted transaction, a third one begins. *)
Lemma callback_registered_at_most_once_witness :
  registrations
    (trace (run Cluster.healthy Cluster.session
                (initial_state COMMIT_PROTOCOL_2PC))) <= 1
  /\
  OpenWorkerTransactions Cluster.healthy
    (run Cluster.healthy Cluster.session (initial_state COMMIT_PROTOCOL_2PC))
  = (Normal Cluster.two_handles,
     snd (OpenWorkerTransactions Cluster.healthy
            (run Cluster.healthy Cluster.session
                 (initial_state COMMIT_PROTOCOL_2PC))))
  /\
  registrations
    (trace (snd (OpenWorkerTransactions Cluster.healthy
                   (run Cluster.healthy Cluster.session
                        (initial_state COMMIT_PROTOCOL_2PC))))) = 1
  /\
  isXactCallbackRegistered
    (snd (OpenWorkerTransactions Cluster.healthy
            (run Cluster.healthy Cluster.session
                 (initial_state COMMIT_PROTOCOL_2PC)))) = true.
Proof.
  assert (Hopen :
            OpenWorkerTransactions Cluster.healthy
              (run Cluster.healthy Cluster.session
                   (initial_state COMMIT_PROTOCOL_2PC))
            = (Normal Cluster.two_handles,
               snd (OpenWorkerTransactions Cluster.healthy
                      (run Cluster.healthy Cluster.session
                           (initial_state COMMIT_PROTOCOL_2PC)))))
    by (vm_compute; reflexivity).
  split; [|split; [exact Hopen|]].
  - apply (proj1 (@callback_registered_at_most_once
                    Cluster.healthy COMMIT_PROTOCOL_2PC Cluster.session)).
  - apply (proj1 (proj2 (proj2 (proj2 (@callback_registered_at_most_once
                                         Cluster.healthy COMMIT_PROTOCOL_2PC
                                         Cluster.session))
                               (Normal Cluster.two_handles) _ Hopen))
                 Cluster.two_handles eq_refl).
Defined.

(** ** An empty cluster *)

(** C10. With no worker in the catalogue and no handle cached, both
    dispatchers return normally.  The only calls they make are the
    catalogue read and, unless it was made before, the registration of the
    callback: nothing is sent to any worker.  Afterwards the flag is set and
    the registry is still empty, so the callback does nothing for any
    event. *)
Theorem empty_cluster_dispatch E s command :
  env_WorkerNodeList E (trace s) = [] ->
  workerConnectionList s = [] ->
  exists s1 evs,
    SendCommandToWorkersInOrder E command s = (Normal tt, s1) /\
    SendCommandToWorkersInParallel E command s = (Normal tt, s1) /\
    trace s1 = trace s ++ evs /\
    evs = EvWorkerNodeList
            :: (if isXactCallbackRegistered s then []
                else [EvRegisterXactCallback]) /\
    remote evs = [] /\
    isXactCallbackRegistered s1 = true /\
    workerConnectionList s1 = [] /\
    forall ev,
      CompleteWorkerTransactions E ev s1 = (Normal tt, s1) /\
      CallXactCallbacks E ev s1 = (Normal tt, s1).
Proof.
  intros Hws Hnil.
  destruct (OpenWorkerTransactions E s) as [r s1] eqn:Hopen.
  pose proof Hopen as Hpop.
  rewrite OpenWorkerTransactions_empty in Hpop by assumption.
  apply populate_spec in Hpop. destruct Hpop as [_ Hr].
  destruct r as [l|e].
  - destruct Hr as (Hl & Hlen & Hf & Ht).
    destruct l; [|discriminate]. simpl in Ht.
    exists s1. eexists.
    split; [unfold SendCommandToWorkersInOrder, bind; now rewrite Hopen|].
    split; [unfold SendCommandToWorkersInParallel, bind; now rewrite Hopen|].
    split; [rewrite Ht, <- app_assoc; reflexivity|].
    split; [reflexivity|].
    split; [now destruct (isXactCallbackRegistered s)|].
    split; [exact Hf|]. split; [exact Hl|].
    intros ev.
    assert (Hnoop : CompleteWorkerTransactions E ev s1 = (Normal tt, s1))
      by now apply CompleteWorkerTransactions_empty.
    split; [exact Hnoop|].
    unfold CallXactCallbacks. run_monad. now rewrite Hf.
  - destruct Hr as (_ & _ & pre & w & post & hs & Hsplit & _).
    now destruct pre.
Qed.

(** A backend start on a cluster without workers. *)
Lemma empty_cluster_dispatch_witness :
  env_WorkerNodeList Cluster.empty (trace Cluster.start) = []
  /\
  workerConnectionList Cluster.start = []
  /\
  exists s1 evs,
    SendCommandToWorkersInOrder Cluster.empty "CREATE TABLE t" Cluster.start
    = (Normal tt, s1) /\
    SendCommandToWorkersInParallel Cluster.empty "CREATE TABLE t" Cluster.start
    = (Normal tt, s1) /\
    trace s1 = trace Cluster.start ++ evs /\
    evs = EvWorkerNodeList
            :: (if isXactCallbackRegistered Cluster.start then []
                else [EvRegisterXactCallback]) /\
    remote evs = [] /\
    isXactCallbackRegistered s1 = true /\
    workerConnectionList s1 = [] /\
    forall ev,
      CompleteWorkerTransactions Cluster.empty ev s1 = (Normal tt, s1) /\
      CallXactCallbacks Cluster.empty ev s1 = (Normal tt, s1).
Proof.
  split; [reflexivity|]. split; [reflexivity|].
  apply (@empty_cluster_dispatch Cluster.empty Cluster.start "CREATE TABLE t");
    vm_compute; reflexivity.
Defined.

(** ** Further properties of the registry *)

Section Population.

Variable E : Env.

(** The handle the opening loop builds for a worker, given the connection
    it obtained. *)
Lemma open_loop_handles workerList : forall acc s l s',
  open_loop E workerList acc s = (Normal l, s') ->
  exists hs,
    l = acc ++ hs /\
    Forall (fun h => connectionId h = 0%Z /\
                     transactionState h = TRANSACTION_STATE_OPEN /\
                     connection h <> NULL) hs /\
    forall provider,
      (forall t nodeName nodePort,
          env_GetOrEstablishConnection E t nodeName nodePort
          = provider nodeName nodePort) ->
      map connection hs
      = map (fun w => provider (workerName w) (workerPort w)) workerList.
Proof.
  induction workerList as [|w ws IH]; intros acc s l s' Hrun.
  - run_monad. simpl in Hrun. injection Hrun as <- <-.
    exists []. rewrite app_nil_r. repeat split; auto.
  - simpl in Hrun. run_monad. simpl in Hrun.
    set (c := env_GetOrEstablishConnection E (trace s) (workerName w)
                                           (workerPort w)) in *.
    destruct (Z.eqb c NULL) eqn:Hnull; [discriminate|].
    destruct (not_COMMAND_OK _); [discriminate|].
    apply IH in Hrun. destruct Hrun as (hs & -> & Hfresh & Hprov).
    eexists (_ :: hs). split; [now rewrite <- app_assoc|]. split.
    + constructor; [|exact Hfresh]. simpl. repeat split.
      now apply Z.eqb_neq.
    + intros provider Hanswer. simpl. f_equal; [|now apply Hprov].
      apply Hanswer.
Qed.

Lemma populate_handles workerList s l s' :
  populate E workerList s = (Normal l, s') ->
  Forall (fun h => connectionId h = 0%Z /\
                   transactionState h = TRANSACTION_STATE_OPEN /\
                   connection h <> NULL) l /\
  forall provider,
    (forall t nodeName nodePort,
        env_GetOrEstablishConnection E t nodeName nodePort
        = provider nodeName nodePort) ->
    map connection l
    = map (fun w => provider (workerName w) (workerPort w)) workerList.
Proof.
  unfold populate, bind at 1.
  destruct (open_loop E workerList [] s) as [[l0|e] s1] eqn:Hloop;
    [|discriminate].
  apply open_loop_handles in Hloop. destruct Hloop as (hs & -> & Hfresh & Hprov).
  simpl. run_monad.
  destruct (isXactCallbackRegistered s1); simpl; intros [= <- _]; auto.
Qed.

(** An acquisition that does not find a usable cache runs the population,
    from a state that differs in its trace only and has no handle cached. *)
Lemma OpenWorkerTransactions_populates s :
  workerConnectionList s = [] \/
  List.length (env_WorkerNodeList E (trace s))
    <> List.length (workerConnectionList s) ->
  exists s0,
    OpenWorkerTransactions E s
    = populate E (env_WorkerNodeList E (trace s)) s0 /\
    workerConnectionList s0 = [] /\
    isXactCallbackRegistered s0 = isXactCallbackRegistered s.
Proof.
  intros Hcase.
  destruct (OpenWorkerTransactions_cases E s) as [[Hne Hlen]|[Hlen|[Hnil Hws]]].
  - destruct Hcase as [Hnil|Hneq]; contradiction.
  - exists (reopened s). split; [|split; reflexivity].
    now apply OpenWorkerTransactions_mismatch.
  - exists (log EvWorkerNodeList s). split; [|split; [exact Hnil|reflexivity]].
    rewrite Hws. now apply OpenWorkerTransactions_empty.
Qed.

(** What a failed acquisition has done by the time it raises. *)
Lemma failed_acquisition_trace s e s' :
  OpenWorkerTransactions E s = (Raised e, s') ->
  exists pre w post hs tail,
    env_WorkerNodeList E (trace s) = pre ++ w :: post /\
    List.length hs = List.length pre /\
    trace s' = trace s
                 ++ [EvWorkerNodeList;
                     EvCloseConnections (workerConnectionList s)]
                 ++ open_events pre hs ++ tail /\
    (tail = [EvGetOrEstablishConnection (workerName w) (workerPort w)] \/
     exists c result,
       tail = [EvGetOrEstablishConnection (workerName w) (workerPort w);
               EvPQexec c "BEGIN";
               EvReportRemoteError c result]).
Proof.
  intros Hrun.
  destruct (OpenWorkerTransactions_cases E s) as [[Hne Hlen]|[Hlen|[Hnil Hws]]].
  - rewrite OpenWorkerTransactions_cached in Hrun by assumption. discriminate.
  - rewrite OpenWorkerTransactions_mismatch in Hrun by assumption.
    apply populate_spec in Hrun.
    destruct Hrun as (_ & _ & _ & pre & w & post & hs & Hsplit & Hlen' & Hcase).
    simpl in Hcase. exists pre, w, post, hs.
    destruct Hcase as [[_ Ht]|(c & result & _ & Ht)]; eexists;
      (split; [exact Hsplit|]; split; [exact Hlen'|];
       split; [rewrite Ht, <- app_assoc; reflexivity|]).
    + now left.
    + right. now exists c, result.
  - rewrite OpenWorkerTransactions_empty in Hrun by assumption.
    apply populate_spec in Hrun.
    destruct Hrun as (_ & _ & _ & pre & w & post & hs & Hsplit & _).
    now destruct pre.
Qed.

End Population.

Lemma open_events_submitted ws : forall hs, submitted (open_events ws hs) = [].
Proof.
  induction ws as [|w ws IH]; intros [|h hs]; simpl; auto.
Qed.

Lemma open_events_drained ws : forall hs, drained (open_events ws hs) = [].
Proof.
  induction ws as [|w ws IH]; intros [|h hs]; simpl; auto.
Qed.

Lemma open_events_only_BEGIN ws : forall hs,
  Forall (fun call => snd call = "BEGIN"%string) (executed (open_events ws hs)).
Proof.
  induction ws as [|w ws IH]; intros [|h hs]; simpl; try constructor.
  - reflexivity.
  - apply (IH hs).
Qed.

(** X1. When the acquisition of the handles fails, either dispatcher fails
    with the very same error and leaves the very same state: no command is
    executed or submitted and no result is fetched.  The only statements
    that have reached a worker are BEGINs. *)
Theorem dispatch_propagates_acquisition_error E command s e s' :
  OpenWorkerTransactions E s = (Raised e, s') ->
  SendCommandToWorkersInOrder E command s = (Raised e, s') /\
  SendCommandToWorkersInParallel E command s = (Raised e, s') /\
  exists evs,
    trace s' = trace s ++ evs /\
    submitted evs = [] /\
    drained evs = [] /\
    Forall (fun call => snd call = "BEGIN"%string) (executed evs).
Proof.
  intros Hopen.
  split; [unfold SendCommandToWorkersInOrder, bind; now rewrite Hopen|].
  split; [unfold SendCommandToWorkersInParallel, bind; now rewrite Hopen|].
  destruct (failed_acquisition_trace _ _ Hopen)
    as (pre & w & post & hs & tail & _ & _ & Ht & Htail).
  eexists. split; [exact Ht|].
  rewrite !submitted_app, !drained_app, !executed_app.
  rewrite open_events_submitted, open_events_drained. simpl.
  destruct Htail as [->|(c & result & ->)]; simpl;
    (split; [reflexivity|]); (split; [reflexivity|]).
  - rewrite app_nil_r. apply open_events_only_BEGIN.
  - apply Forall_app. split; [apply open_events_only_BEGIN|]. now constructor.
Qed.

(** With the second of two workers refusing BEGIN. *)
Lemma dispatch_propagates_acquisition_error_witness :
  OpenWorkerTransactions Cluster.begin_refused Cluster.start
  = (Raised (errmsg_could_not_start_transaction "worker-2" 5432%Z),
     snd (OpenWorkerTransactions Cluster.begin_refused Cluster.start))
  /\
  SendCommandToWorkersInOrder Cluster.begin_refused "CREATE TABLE t"
                              Cluster.start
  = (Raised (errmsg_could_not_start_transaction "worker-2" 5432%Z),
     snd (OpenWorkerTransactions Cluster.begin_refused Cluster.start))
  /\
  SendCommandToWorkersInParallel Cluster.begin_refused "CREATE TABLE t"
                                 Cluster.start
  = (Raised (errmsg_could_not_start_transaction "worker-2" 5432%Z),
     snd (OpenWorkerTransactions Cluster.begin_refused Cluster.start)).
Proof.
  assert (Hopen :
            OpenWorkerTransactions Cluster.begin_refused Cluster.start
            = (Raised (errmsg_could_not_start_transaction "worker-2" 5432%Z),
               snd (OpenWorkerTransactions Cluster.begin_refused Cluster.start)))
    by (vm_compute; reflexivity).
  split; [exact Hopen|].
  destruct (@dispatch_propagates_acquisition_error
              Cluster.begin_refused "CREATE TABLE t" Cluster.start _ _ Hopen)
    as (Hordered & Hparallel & _).
  split; assumption.
Defined.

(** The dispatch loops leave the static variables alone and register
    nothing. *)
Lemma dispatch_quiet E command s l s1 r s2 :
  OpenWorkerTransactions E s = (Normal l, s1) ->
  SendCommandToWorkersInOrder E command s = (r, s2) \/
  SendCommandToWorkersInParallel E command s = (r, s2) ->
  same_statics s1 s2 /\
  exists evs, trace s2 = trace s1 ++ evs /\ registrations evs = 0.
Proof.
  intros Hopen [Hrun|Hrun].
  - rewrite (SendCommandToWorkersInOrder_after_open _ _ _ Hopen) in Hrun.
    revert Hrun. apply quiet_foreach. intros h.
    apply quiet_execute_on_worker.
  - rewrite (SendCommandToWorkersInParallel_after_open _ _ _ Hopen) in Hrun.
    assert (Hboth : quiet (bind (foreach l (submit_to_worker E command))
                                (fun _ => foreach l (drain_worker E)))).
    { apply quiet_bind.
      - apply quiet_foreach. intros h. apply quiet_submit_to_worker.
      - intros _. apply quiet_foreach. intros h. apply quiet_drain_worker. }
    apply (Hboth s1 r s2). unfold bind. exact Hrun.
Qed.

(** X2. The dispatch loops touch neither static variable: whether a
    dispatcher returns or raises, the registry afterwards is exactly the
    list the acquisition returned, the flag is as the acquisition left it,
    and no callback has been registered on the way.  In particular a
    command that fails on one worker does not drop any handle. *)
Theorem dispatch_keeps_registry E command s l s1 r s2 :
  OpenWorkerTransactions E s = (Normal l, s1) ->
  SendCommandToWorkersInOrder E command s = (r, s2) \/
  SendCommandToWorkersInParallel E command s = (r, s2) ->
  workerConnectionList s2 = l /\
  isXactCallbackRegistered s2 = isXactCallbackRegistered s1 /\
  registrations (trace s2) = registrations (trace s1).
Proof.
  intros Hopen Hrun.
  assert (Hl : workerConnectionList s1 = l)
    by apply (OpenWorkerTransactions_outcome _ _ Hopen).
  destruct (@dispatch_quiet E command s l s1 r s2 Hopen Hrun)
    as ((Hreg & Hflag & _) & evs & Ht & Hcount).
  split; [congruence|]. split; [exact Hflag|].
  rewrite Ht, registrations_app, Hcount. lia.
Qed.

(** On three workers of which the second refuses the command. *)
Lemma dispatch_keeps_registry_witness :
  OpenWorkerTransactions Cluster.command_refused Cluster.start
  = (Normal Cluster.three_handles, Cluster.in_transaction3)
  /\
  workerConnectionList
    (snd (SendCommandToWorkersInOrder Cluster.command_refused
            "CREATE TABLE t" Cluster.start))
  = Cluster.three_handles.
Proof.
  split; [reflexivity|].
  apply (@dispatch_keeps_registry
           Cluster.command_refused "CREATE TABLE t" Cluster.start
           Cluster.three_handles Cluster.in_transaction3
           (fst (SendCommandToWorkersInOrder Cluster.command_refused
                   "CREATE TABLE t" Cluster.start))
           (snd (SendCommandToWorkersInOrder Cluster.command_refused
                   "CREATE TABLE t" Cluster.start))).
  - reflexivity.
  - left. apply surjective_pairing.
Defined.

(** X3. Whenever an acquisition has to populate the registry (nothing is
    cached, or the worker count differs from the cached count) and
    succeeds, every handle it returns is new: [connectionId] 0, state
    [TRANSACTION_STATE_OPEN], and a connection that is not [NULL].  The
    i-th handle carries the connection the provider answered for the i-th
    worker of the catalogue during this call; in particular, if the
    provider answers by node only, it is that node's connection. *)
Theorem handles_follow_topology_order E s l s' :
  workerConnectionList s = [] \/
  List.length (env_WorkerNodeList E (trace s))
    <> List.length (workerConnectionList s) ->
  OpenWorkerTransactions E s = (Normal l, s') ->
  Forall (fun h => connectionId h = 0%Z /\
                   transactionState h = TRANSACTION_STATE_OPEN /\
                   connection h <> NULL) l /\
  all_willing E (trace (reopened s)) (env_WorkerNodeList E (trace s)) = true /\
  l = open_handles E (trace (reopened s)) (env_WorkerNodeList E (trace s)) /\
  forall provider,
    (forall t nodeName nodePort,
        env_GetOrEstablishConnection E t nodeName nodePort
        = provider nodeName nodePort) ->
    l = map (fun w => {| connectionId := 0;
                         transactionState := TRANSACTION_STATE_OPEN;
                         connection := provider (workerName w) (workerPort w) |})
            (env_WorkerNodeList E (trace s)).
Proof.
  intros Hcase Hopen.
  destruct (OpenWorkerTransactions_populates E s Hcase) as (s0 & Heq & _).
  pose proof Hopen as Hpop. rewrite Heq in Hpop.
  apply populate_handles in Hpop. destruct Hpop as [Hfresh Hconn].
  split; [exact Hfresh|].
  assert (Hall : all_willing E (trace (reopened s))
                   (env_WorkerNodeList E (trace s)) = true).
  { destruct (all_willing E (trace (reopened s))
                (env_WorkerNodeList E (trace s))) eqn:Hall; [reflexivity|].
    destruct (all_willing_false E _ _ Hall)
      as (pre & w & post & Hws & Hpre & Hw).
    destruct (OpenWorkerTransactions_cases E s)
      as [[Hne Hlen]|[Hlen|[Hnil Hempty]]].
    - destruct Hcase; contradiction.
    - rewrite (@OpenWorkerTransactions_refused E s pre w post) in Hopen;
        [discriminate|assumption|now rewrite <- Hws|assumption|assumption].
    - rewrite Hempty in Hws. now destruct pre. }
  split; [exact Hall|]. split.
  - destruct (OpenWorkerTransactions_willing E s Hcase Hall)
      as (s1 & Hopen' & _).
    rewrite Hopen in Hopen'. now injection Hopen' as ->.
  - intros provider Hprovider. specialize (Hconn provider Hprovider).
    clear - Hfresh Hconn.
    revert Hfresh Hconn. generalize (env_WorkerNodeList E (trace s)).
    induction l as [|h l IH]; intros [|w ws] Hfresh Hconn;
      simpl in *; try discriminate; [reflexivity|].
    inversion Hfresh as [|? ? (Hid & Hstate & _) Hrest]; subst.
    injection Hconn as Hc Hcs. f_equal; [|now apply IH].
    destruct h as [id st c]; simpl in *. congruence.
Qed.

(** On a healthy two-worker cluster. *)
Lemma handles_follow_topology_order_witness :
  (workerConnectionList Cluster.start = [] \/
   List.length (env_WorkerNodeList Cluster.healthy (trace Cluster.start))
     <> List.length (workerConnectionList Cluster.start))
  /\
  OpenWorkerTransactions Cluster.healthy Cluster.start
  = (Normal Cluster.two_handles, Cluster.in_transaction COMMIT_PROTOCOL_1PC)
  /\
  Forall (fun h => connectionId h = 0%Z /\
                   transactionState h = TRANSACTION_STATE_OPEN /\
                   connection h <> NULL) Cluster.two_handles
  /\
  Cluster.two_handles
  = open_handles Cluster.healthy (trace (reopened Cluster.start))
      (env_WorkerNodeList Cluster.healthy (trace Cluster.start))
  /\
  ((forall t nodeName nodePort,
       env_GetOrEstablishConnection Cluster.healthy t nodeName nodePort
       = (fun n (_ : Z) => Cluster.address n) nodeName nodePort) ->
   Cluster.two_handles
   = map (fun w => {| connectionId := 0;
                      transactionState := TRANSACTION_STATE_OPEN;
                      connection := Cluster.address (workerName w) |})
         (env_WorkerNodeList Cluster.healthy (trace Cluster.start))).
Proof.
  split; [left; reflexivity|]. split; [reflexivity|].
  destruct (@handles_follow_topology_order
              Cluster.healthy Cluster.start Cluster.two_handles
              (Cluster.in_transaction COMMIT_PROTOCOL_1PC)
              (or_introl eq_refl) eq_refl)
    as (Hfresh & _ & Hhandles & Hprovider).
  split; [exact Hfresh|]. split; [exact Hhandles|].
  exact (Hprovider (fun n (_ : Z) => Cluster.address n)).
Defined.

(** ** Further properties of the callback *)

Lemma CompleteWorkerTransactions_connections E ev s r s' :
  CompleteWorkerTransactions E ev s = (r, s') ->
  workerConnectionList s' = [] \/
  map connection (workerConnectionList s')
  = map connection (workerConnectionList s).
Proof.
  intros Hrun.
  destruct (workerConnectionList s) as [|h l] eqn:Hl.
  - rewrite CompleteWorkerTransactions_empty in Hrun by assumption.
    injection Hrun as <- <-. now left.
  - assert (Hne : workerConnectionList s <> []) by (rewrite Hl; discriminate).
    destruct ev;
      try (rewrite CompleteWorkerTransactions_other in Hrun by discriminate;
           injection Hrun as <- <-; right; now rewrite Hl).
    + rewrite CompleteWorkerTransactions_COMMIT in Hrun by assumption.
      injection Hrun as <- <-. now left.
    + rewrite CompleteWorkerTransactions_ABORT in Hrun by assumption.
      injection Hrun as <- <-. now left.
    + rewrite CompleteWorkerTransactions_PRE_COMMIT in Hrun by assumption.
      right. rewrite <- Hl.
      destruct (is_COMMIT_PROTOCOL_2PC (MultiShardCommitProtocol s)).
      * unfold PrepareRemoteTransactions in Hrun.
        destruct (snd (env_PrepareRemoteTransactions E (trace s)
                         (workerConnectionList s)));
          injection Hrun as <- <-; simpl;
          apply setTransactionStates_connection.
      * now injection Hrun as <- <-.
Qed.

(** X4. Once [XACT_EVENT_COMMIT] or [XACT_EVENT_ABORT] has been handled,
    the callback does nothing for any further event, whichever it is: the
    commit and abort helpers are never called a second time for the same
    handles. *)
Theorem completion_is_idempotent E s ev ev' :
  ev = XACT_EVENT_COMMIT \/ ev = XACT_EVENT_ABORT ->
  CompleteWorkerTransactions E ev'
    (snd (CompleteWorkerTransactions E ev s))
  = (Normal tt, snd (CompleteWorkerTransactions E ev s)).
Proof.
  intros Hev. apply CompleteWorkerTransactions_empty.
  destruct (workerConnectionList s) as [|h l] eqn:Hl.
  - now rewrite CompleteWorkerTransactions_empty.
  - assert (Hne : workerConnectionList s <> []) by (rewrite Hl; discriminate).
    destruct Hev as [-> | ->].
    + now rewrite CompleteWorkerTransactions_COMMIT.
    + now rewrite CompleteWorkerTransactions_ABORT.
Qed.

(** A commit followed by an abort event, two handles registered. *)
Lemma completion_is_idempotent_witness :
  (XACT_EVENT_COMMIT = XACT_EVENT_COMMIT \/ XACT_EVENT_COMMIT = XACT_EVENT_ABORT)
  /\
  CompleteWorkerTransactions Cluster.healthy XACT_EVENT_ABORT
    (snd (CompleteWorkerTransactions Cluster.healthy XACT_EVENT_COMMIT
            (Cluster.in_transaction COMMIT_PROTOCOL_2PC)))
  = (Normal tt,
     snd (CompleteWorkerTransactions Cluster.healthy XACT_EVENT_COMMIT
            (Cluster.in_transaction COMMIT_PROTOCOL_2PC))).
Proof.
  split; [left; reflexivity|].
  apply (@completion_is_idempotent
           Cluster.healthy (Cluster.in_transaction COMMIT_PROTOCOL_2PC)
           XACT_EVENT_COMMIT XACT_EVENT_ABORT).
  left; reflexivity.
Defined.

(** X5. If handling [XACT_EVENT_PRE_COMMIT] raises, two-phase commit is
    configured and the error is the prepare helper's.  The registry still
    holds the handles, over the same connections, so the
    [XACT_EVENT_ABORT] that follows hands all of them to
    [AbortRemoteTransactions] and then empties the registry. *)
Theorem prepare_failure_is_rolled_back E s e s1 :
  CompleteWorkerTransactions E XACT_EVENT_PRE_COMMIT s = (Raised e, s1) ->
  MultiShardCommitProtocol s = COMMIT_PROTOCOL_2PC /\
  snd (env_PrepareRemoteTransactions E (trace s) (workerConnectionList s))
  = Some e /\
  map connection (workerConnectionList s1)
  = map connection (workerConnectionList s) /\
  exists s2,
    CompleteWorkerTransactions E XACT_EVENT_ABORT s1 = (Normal tt, s2) /\
    workerConnectionList s2 = [] /\
    trace s2 = trace s
                 ++ [EvPrepareRemoteTransactions (workerConnectionList s);
                     EvAbortRemoteTransactions (workerConnectionList s1)].
Proof.
  intros Hrun.
  destruct (workerConnectionList s) as [|h l] eqn:Hl.
  { rewrite CompleteWorkerTransactions_empty in Hrun by assumption.
    discriminate. }
  assert (Hne : workerConnectionList s <> []) by (rewrite Hl; discriminate).
  rewrite CompleteWorkerTransactions_PRE_COMMIT in Hrun by assumption.
  destruct (MultiShardCommitProtocol s); simpl in Hrun; [discriminate|].
  unfold PrepareRemoteTransactions in Hrun. rewrite <- Hl.
  destruct (snd (env_PrepareRemoteTransactions E (trace s)
                   (workerConnectionList s))) as [e'|] eqn:Hanswer;
    [|discriminate].
  injection Hrun as <- <-.
  split; [reflexivity|]. split; [reflexivity|].
  split; [apply setTransactionStates_connection|].
  eexists. rewrite CompleteWorkerTransactions_ABORT.
  - split; [reflexivity|]. split; [reflexivity|].
    simpl. rewrite <- app_assoc. reflexivity.
  - simpl. rewrite Hl. destruct (fst _); discriminate.
Qed.

(** Two handles registered, PREPARE refused. *)
Lemma prepare_failure_is_rolled_back_witness :
  CompleteWorkerTransactions Cluster.prepare_refused XACT_EVENT_PRE_COMMIT
                             (Cluster.in_transaction COMMIT_PROTOCOL_2PC)
  = (Raised "failed to prepare transaction"%string,
     snd (CompleteWorkerTransactions Cluster.prepare_refused
            XACT_EVENT_PRE_COMMIT
            (Cluster.in_transaction COMMIT_PROTOCOL_2PC)))
  /\
  exists s2,
    CompleteWorkerTransactions Cluster.prepare_refused XACT_EVENT_ABORT
      (snd (CompleteWorkerTransactions Cluster.prepare_refused
              XACT_EVENT_PRE_COMMIT
              (Cluster.in_transaction COMMIT_PROTOCOL_2PC)))
    = (Normal tt, s2) /\
    workerConnectionList s2 = [] /\
    trace s2
    = trace (Cluster.in_transaction COMMIT_PROTOCOL_2PC)
        ++ [EvPrepareRemoteTransactions
              (workerConnectionList (Cluster.in_transaction COMMIT_PROTOCOL_2PC));
            EvAbortRemoteTransactions
              (workerConnectionList
                 (snd (CompleteWorkerTransactions Cluster.prepare_refused
                         XACT_EVENT_PRE_COMMIT
                         (Cluster.in_transaction COMMIT_PROTOCOL_2PC))))].
Proof.
  split; [reflexivity|].
  apply (@prepare_failure_is_rolled_back
           Cluster.prepare_refused (Cluster.in_transaction COMMIT_PROTOCOL_2PC)
           "failed to prepare transaction"%string
           (snd (CompleteWorkerTransactions Cluster.prepare_refused
                   XACT_EVENT_PRE_COMMIT
                   (Cluster.in_transaction COMMIT_PROTOCOL_2PC)))).
  reflexivity.
Defined.

(** X6. The two-phase path of a transaction that commits: with two-phase
    commit configured and a prepare helper that does not raise,
    [XACT_EVENT_PRE_COMMIT] followed by [XACT_EVENT_COMMIT] calls the
    prepare helper and then the commit helper (with [stopOnFailure] false),
    once each and in this order, on handles over the same connections; the
    registry is empty in the end. *)
Theorem two_phase_commit_path E s :
  workerConnectionList s <> [] ->
  MultiShardCommitProtocol s = COMMIT_PROTOCOL_2PC ->
  snd (env_PrepareRemoteTransactions E (trace s) (workerConnectionList s))
  = None ->
  exists s1 s2,
    CompleteWorkerTransactions E XACT_EVENT_PRE_COMMIT s = (Normal tt, s1) /\
    CompleteWorkerTransactions E XACT_EVENT_COMMIT s1 = (Normal tt, s2) /\
    map connection (workerConnectionList s1)
    = map connection (workerConnectionList s) /\
    trace s2 = trace s
                 ++ [EvPrepareRemoteTransactions (workerConnectionList s);
                     EvCommitRemoteTransactions (workerConnectionList s1) false] /\
    workerConnectionList s2 = [].
Proof.
  intros Hne Hp Hanswer.
  rewrite CompleteWorkerTransactions_PRE_COMMIT by assumption.
  rewrite Hp. simpl. unfold PrepareRemoteTransactions. rewrite Hanswer.
  eexists. eexists. split; [reflexivity|].
  rewrite CompleteWorkerTransactions_COMMIT.
  - split; [reflexivity|]. simpl.
    split; [apply setTransactionStates_connection|].
    split; [rewrite <- app_assoc; reflexivity|reflexivity].
  - simpl. intros Hnil.
    apply (f_equal (@List.length _)) in Hnil.
    rewrite setTransactionStates_length in Hnil.
    destruct (workerConnectionList s); [now apply Hne|discriminate].
Qed.

(** Two handles registered, everything succeeds. *)
Lemma two_phase_commit_path_witness :
  workerConnectionList (Cluster.in_transaction COMMIT_PROTOCOL_2PC) <> []
  /\
  MultiShardCommitProtocol (Cluster.in_transaction COMMIT_PROTOCOL_2PC)
  = COMMIT_PROTOCOL_2PC
  /\
  snd (env_PrepareRemoteTransactions Cluster.healthy
         (trace (Cluster.in_transaction COMMIT_PROTOCOL_2PC))
         (workerConnectionList (Cluster.in_transaction COMMIT_PROTOCOL_2PC)))
  = None
  /\
  exists s1 s2,
    CompleteWorkerTransactions Cluster.healthy XACT_EVENT_PRE_COMMIT
                               (Cluster.in_transaction COMMIT_PROTOCOL_2PC)
    = (Normal tt, s1) /\
    CompleteWorkerTransactions Cluster.healthy XACT_EVENT_COMMIT s1
    = (Normal tt, s2) /\
    map connection (workerConnectionList s1)
    = map connection
          (workerConnectionList (Cluster.in_transaction COMMIT_PROTOCOL_2PC)) /\
    trace s2
    = trace (Cluster.in_transaction COMMIT_PROTOCOL_2PC)
        ++ [EvPrepareRemoteTransactions
              (workerConnectionList (Cluster.in_transaction COMMIT_PROTOCOL_2PC));
            EvCommitRemoteTransactions (workerConnectionList s1) false] /\
    workerConnectionList s2 = [].
Proof.
  split; [discriminate|]. split; [reflexivity|]. split; [reflexivity|].
  apply (@two_phase_commit_path
           Cluster.healthy (Cluster.in_transaction COMMIT_PROTOCOL_2PC)).
  - discriminate.
  - reflexivity.
  - reflexivity.
Defined.

(** ** What holds in every state a backend can reach *)

(** X7. In every state a backend can reach, handles are cached only if the
    callback is registered.  Hence a transaction end delivered by
    PostgreSQL always reaches them: on [XACT_EVENT_ABORT] the cached
    handles, all of them, go to [AbortRemoteTransactions], on
    [XACT_EVENT_COMMIT] to [CommitRemoteTransactions] with [stopOnFailure]
    false; the call returns normally and the registry is empty
    afterwards.  With nothing cached no helper is called. *)
Theorem transaction_end_reaches_every_handle E protocol ops :
  (workerConnectionList (run E ops (initial_state protocol)) <> [] ->
   isXactCallbackRegistered (run E ops (initial_state protocol)) = true)
  /\
  (exists s',
      CallXactCallbacks E XACT_EVENT_ABORT (run E ops (initial_state protocol))
      = (Normal tt, s') /\
      workerConnectionList s' = [] /\
      trace s'
      = trace (run E ops (initial_state protocol))
          ++ match workerConnectionList (run E ops (initial_state protocol)) with
             | [] => []
             | _ :: _ =>
                 [EvAbortRemoteTransactions
                    (workerConnectionList (run E ops (initial_state protocol)))]
             end)
  /\
  (exists s',
      CallXactCallbacks E XACT_EVENT_COMMIT (run E ops (initial_state protocol))
      = (Normal tt, s') /\
      workerConnectionList s' = [] /\
      trace s'
      = trace (run E ops (initial_state protocol))
          ++ match workerConnectionList (run E ops (initial_state protocol)) with
             | [] => []
             | _ :: _ =>
                 [EvCommitRemoteTransactions
                    (workerConnectionList (run E ops (initial_state protocol)))
                    false]
             end).
Proof.
  pose proof (run_invariant E ops (initial_state_invariant protocol))
    as [_ Hreg].
  set (s := run E ops (initial_state protocol)) in *.
  split; [exact Hreg|].
  assert (Hcall : forall ev,
             CallXactCallbacks E ev s = CompleteWorkerTransactions E ev s).
  { intros ev. unfold CallXactCallbacks. run_monad.
    destruct (isXactCallbackRegistered s) eqn:Hflag; [reflexivity|].
    rewrite CompleteWorkerTransactions_empty; [reflexivity|].
    destruct (workerConnectionList s) as [|h l] eqn:Hl; [reflexivity|].
    assert (Hset : false = true) by (apply Hreg; discriminate).
    discriminate. }
  rewrite !Hcall.
  destruct (workerConnectionList s) as [|h l] eqn:Hl.
  - rewrite !CompleteWorkerTransactions_empty by assumption.
    split; exists s; rewrite app_nil_r; auto.
  - assert (Hne : workerConnectionList s <> []) by (rewrite Hl; discriminate).
    rewrite CompleteWorkerTransactions_ABORT by assumption.
    rewrite CompleteWorkerTransactions_COMMIT by assumption.
    rewrite Hl. split; eexists; repeat split.
Qed.

(** After a dispatch on a healthy cluster the abort reaches both workers. *)
Lemma transaction_end_reaches_every_handle_witness :
  exists s',
    CallXactCallbacks Cluster.healthy XACT_EVENT_ABORT
      (run Cluster.healthy [OpSendInOrder "CREATE TABLE t"]
           (initial_state COMMIT_PROTOCOL_1PC))
    = (Normal tt, s') /\
    workerConnectionList s' = [].
Proof.
  destruct (proj1 (proj2 (@transaction_end_reaches_every_handle
                            Cluster.healthy COMMIT_PROTOCOL_1PC
                            [OpSendInOrder "CREATE TABLE t"])))
    as (s' & Hrun & Hnil & _).
  exists s'. split; assumption.
Defined.

Section Connections.

Variable E : Env.

Lemma OpenWorkerTransactions_connected s r s' :
  Forall (fun c => c <> NULL) (map connection (workerConnectionList s)) ->
  OpenWorkerTransactions E s = (r, s') ->
  Forall (fun c => c <> NULL) (map connection (workerConnectionList s')).
Proof.
  intros Hinv Hrun.
  destruct (OpenWorkerTransactions_cases E s) as [[Hne Hlen]|Hcase].
  - rewrite OpenWorkerTransactions_cached in Hrun by assumption.
    now injection Hrun as <- <-.
  - assert (Hpop : workerConnectionList s = [] \/
                   List.length (env_WorkerNodeList E (trace s))
                     <> List.length (workerConnectionList s))
      by (destruct Hcase as [Hlen|[Hnil _]]; auto).
    destruct r as [l|e].
    + assert (Hl : workerConnectionList s' = l)
        by apply (OpenWorkerTransactions_outcome _ _ Hrun).
      destruct (OpenWorkerTransactions_populates E s Hpop) as (s0 & Heq & _).
      rewrite Heq in Hrun. apply populate_handles in Hrun.
      rewrite Hl. apply Forall_map.
      eapply Forall_impl; [|apply Hrun]. intros h (_ & _ & Hnn). exact Hnn.
    + destruct (OpenWorkerTransactions_outcome _ _ Hrun) as [-> _].
      constructor.
Qed.

Lemma perform_connected op s :
  Forall (fun c => c <> NULL) (map connection (workerConnectionList s)) ->
  Forall (fun c => c <> NULL)
         (map connection (workerConnectionList (snd (perform E op s)))).
Proof.
  intros Hinv.
  destruct op as [command|command|ev]; simpl.
  - destruct (OpenWorkerTransactions E s) as [[l|e] s1] eqn:Hopen.
    + destruct (SendCommandToWorkersInOrder E command s) as [r s2] eqn:Hrun.
      destruct (@dispatch_quiet E command s l s1 r s2 Hopen
                  (or_introl Hrun)) as [[Hl _] _].
      simpl. rewrite Hl.
      eapply OpenWorkerTransactions_connected; eauto.
    + unfold SendCommandToWorkersInOrder, bind. rewrite Hopen. simpl.
      eapply OpenWorkerTransactions_connected; eauto.
  - destruct (OpenWorkerTransactions E s) as [[l|e] s1] eqn:Hopen.
    + destruct (SendCommandToWorkersInParallel E command s) as [r s2] eqn:Hrun.
      destruct (@dispatch_quiet E command s l s1 r s2 Hopen
                  (or_intror Hrun)) as [[Hl _] _].
      simpl. rewrite Hl.
      eapply OpenWorkerTransactions_connected; eauto.
    + unfold SendCommandToWorkersInParallel, bind. rewrite Hopen. simpl.
      eapply OpenWorkerTransactions_connected; eauto.
  - unfold CallXactCallbacks. run_monad.
    destruct (isXactCallbackRegistered s); [|exact Hinv].
    destruct (CompleteWorkerTransactions E ev s) as [r s'] eqn:Hrun.
    destruct (CompleteWorkerTransactions_connections _ _ _ Hrun)
      as [Hnil|Hsame]; simpl.
    + rewrite Hnil. constructor.
    + now rewrite Hsame.
Qed.

Lemma run_connected ops : forall s,
  Forall (fun c => c <> NULL) (map connection (workerConnectionList s)) ->
  Forall (fun c => c <> NULL)
         (map connection (workerConnectionList (run E ops s))).
Proof.
  induction ops as [|op ops IH]; intros s Hinv; simpl; [exact Hinv|].
  apply IH, perform_connected, Hinv.
Qed.

End Connections.

(** X8. In every state a backend can reach, every cached handle has a
    connection that is not [NULL]: a worker whose connection is absent
    stops the population before anything is stored, and the helpers only
    rewrite handle states. *)
Theorem registry_connections_never_null E protocol ops :
  Forall (fun h => connection h <> NULL)
         (workerConnectionList (run E ops (initial_state protocol))).
Proof.
  apply (proj1 (Forall_map connection (fun c => c <> NULL) _)).
  apply run_connected. constructor.
Qed.

(** ** A cluster that never refuses *)

Section Healthy.

Variable E : Env.

Hypothesis connection_present :
  forall t t' w,
    In w (env_WorkerNodeList E t) ->
    env_GetOrEstablishConnection E t' (workerName w) (workerPort w) <> NULL.

Hypothesis exec_succeeds :
  forall t c command, COMMAND_OK (env_PQexec E t c command).

Hypothesis prepare_succeeds :
  forall t l, snd (env_PrepareRemoteTransactions E t l) = None.

Lemma open_loop_returns t workerList : forall acc s,
  (forall w, In w workerList -> In w (env_WorkerNodeList E t)) ->
  exists l s', open_loop E workerList acc s = (Normal l, s').
Proof.
  induction workerList as [|w ws IH]; intros acc s Hin.
  - simpl. unfold ret. eauto.
  - simpl. run_monad. simpl.
    assert (Hc : Z.eqb (env_GetOrEstablishConnection E (trace s) (workerName w)
                                                     (workerPort w)) NULL
                 = false).
    { apply Z.eqb_neq. apply (connection_present t). apply Hin. now left. }
    rewrite Hc.
    rewrite (proj2 (not_COMMAND_OK_false _) (exec_succeeds _ _ _)).
    apply IH. intros w' Hw'. apply Hin. now right.
Qed.

Lemma populate_returns s0 s :
  exists l s',
    populate E (env_WorkerNodeList E (trace s0)) s = (Normal l, s').
Proof.
  unfold populate, bind at 1.
  destruct (open_loop_returns (trace s0) (env_WorkerNodeList E (trace s0)) [] s)
    as (l & s1 & Hloop); [auto|].
  rewrite Hloop. run_monad.
  destruct (isXactCallbackRegistered s1); simpl; eauto.
Qed.

Lemma OpenWorkerTransactions_returns s :
  exists l s', OpenWorkerTransactions E s = (Normal l, s').
Proof.
  destruct (OpenWorkerTransactions_cases E s) as [[Hne Hlen]|Hcase].
  - rewrite OpenWorkerTransactions_cached by assumption. eauto.
  - destruct (OpenWorkerTransactions_populates E s) as (s0 & -> & _).
    + destruct Hcase as [Hlen|[Hnil _]]; auto.
    + apply populate_returns.
Qed.

Lemma CompleteWorkerTransactions_returns ev s :
  exists s', CompleteWorkerTransactions E ev s = (Normal tt, s').
Proof.
  destruct (workerConnectionList s) as [|h l] eqn:Hl.
  - rewrite CompleteWorkerTransactions_empty by assumption. eauto.
  - assert (Hne : workerConnectionList s <> []) by (rewrite Hl; discriminate).
    destruct ev;
      try (rewrite CompleteWorkerTransactions_other by discriminate; eauto).
    + rewrite CompleteWorkerTransactions_COMMIT by assumption. eauto.
    + rewrite CompleteWorkerTransactions_ABORT by assumption. eauto.
    + rewrite CompleteWorkerTransactions_PRE_COMMIT by assumption.
      destruct (is_COMMIT_PROTOCOL_2PC _); [|eauto].
      unfold PrepareRemoteTransactions. rewrite prepare_succeeds. eauto.
Qed.

End Healthy.

(** X9. Errors come from the outside only.  If every catalogued worker
    yields a connection, every [PQexec] and every fetched result is
    [PGRES_COMMAND_OK], every [PQsendQuery] is accepted and the prepare
    helper does not raise, then nothing in this file raises: both
    dispatchers and the delivery of any transaction event return normally
    from every state. *)
Theorem healthy_cluster_never_raises E op s :
  (forall t t' w,
      In w (env_WorkerNodeList E t) ->
      env_GetOrEstablishConnection E t' (workerName w) (workerPort w) <> NULL) ->
  (forall t c command, COMMAND_OK (env_PQexec E t c command)) ->
  (forall t c command, env_PQsendQuery E t c command <> 0%Z) ->
  (forall t c, COMMAND_OK (env_PQgetResult E t c)) ->
  (forall t l, snd (env_PrepareRemoteTransactions E t l) = None) ->
  exists s', perform E op s = (Normal tt, s').
Proof.
  intros Hconn Hexec Hsend Hresult Hprepare.
  pose proof (@OpenWorkerTransactions_returns E Hconn Hexec) as Hopens.
  destruct op as [command|command|ev]; simpl.
  - destruct (Hopens s) as (l & s1 & Hopen).
    rewrite (SendCommandToWorkersInOrder_after_open _ _ _ Hopen).
    destruct (execute_loop_spec E command l s1)
      as [(s2 & Hrun & _)|(pre & h & post & s2 & _ & _ & Hbad & _)];
      [eauto|].
    elim Hbad. apply Hexec.
  - destruct (Hopens s) as (l & s1 & Hopen).
    rewrite (SendCommandToWorkersInParallel_after_open _ _ _ Hopen).
    destruct (submit_loop_spec E command l s1)
      as [(s2 & Hrun & _)|(pre & h & post & s2 & _ & _ & Hbad & _)].
    + rewrite Hrun.
      destruct (drain_loop_spec E l s2)
        as [(s3 & Hrun' & _)|(pre & h & post & s3 & _ & _ & Hbad & _)];
        [eauto|].
      elim Hbad. apply Hresult.
    + now apply Hsend in Hbad.
  - unfold CallXactCallbacks. run_monad.
    destruct (isXactCallbackRegistered s); [|eauto].
    now apply CompleteWorkerTransactions_returns.
Qed.

(** A parallel dispatch on the healthy two-worker cluster. *)
Lemma healthy_cluster_never_raises_witness :
  exists s',
    perform Cluster.healthy (OpSendInParallel "CREATE TABLE t") Cluster.start
    = (Normal tt, s').
Proof.
  apply (@healthy_cluster_never_raises
           Cluster.healthy (OpSendInParallel "CREATE TABLE t") Cluster.start).
  - intros t t' w [<-|[<-|[]]]; discriminate.
  - intros t c command. reflexivity.
  - intros t c command. discriminate.
  - intros t c. reflexivity.
  - intros t l. reflexivity.
Defined.

(** X10. A failed acquisition registers nothing and tracks nothing: the
    flag and the number of [RegisterXactCallback] calls are as before, and
    since the registry is left empty the callback calls no helper for any
    event that follows. *)
Theorem failed_acquisition_is_not_tracked E s e s' :
  OpenWorkerTransactions E s = (Raised e, s') ->
  isXactCallbackRegistered s' = isXactCallbackRegistered s /\
  registrations (trace s') = registrations (trace s) /\
  forall ev,
    CompleteWorkerTransactions E ev s' = (Normal tt, s') /\
    CallXactCallbacks E ev s' = (Normal tt, s').
Proof.
  intros Hopen.
  destruct (OpenWorkerTransactions_outcome _ _ Hopen) as [Hnil Hflag].
  split; [exact Hflag|]. split.
  - destruct (failed_acquisition_trace _ _ Hopen)
      as (pre & w & post & hs & tail & _ & _ & Ht & Htail).
    rewrite Ht, !registrations_app, open_events_registrations.
    destruct Htail as [->|(c & result & ->)];
      repeat rewrite registrations_cons; rewrite registrations_nil; lia.
  - intros ev.
    assert (Hnoop : CompleteWorkerTransactions E ev s' = (Normal tt, s'))
      by now apply CompleteWorkerTransactions_empty.
    split; [exact Hnoop|].
    unfold CallXactCallbacks. run_monad.
    now destruct (isXactCallbackRegistered s').
Qed.

(** With the second of two workers refusing BEGIN. *)
Lemma failed_acquisition_is_not_tracked_witness :
  OpenWorkerTransactions Cluster.begin_refused Cluster.start
  = (Raised (errmsg_could_not_start_transaction "worker-2" 5432%Z),
     snd (OpenWorkerTransactions Cluster.begin_refused Cluster.start))
  /\
  isXactCallbackRegistered
    (snd (OpenWorkerTransactions Cluster.begin_refused Cluster.start))
  = isXactCallbackRegistered Cluster.start
  /\
  registrations
    (trace (snd (OpenWorkerTransactions Cluster.begin_refused Cluster.start)))
  = registrations (trace Cluster.start).
Proof.
  assert (Hopen :
            OpenWorkerTransactions Cluster.begin_refused Cluster.start
            = (Raised (errmsg_could_not_start_transaction "worker-2" 5432%Z),
               snd (OpenWorkerTransactions Cluster.begin_refused Cluster.start)))
    by (vm_compute; reflexivity).
  split; [exact Hopen|].
  destruct (@failed_acquisition_is_not_tracked
              Cluster.begin_refused Cluster.start _ _ Hopen)
    as (Hflag & Hcount & _).
  split; assumption.
Defined.
